(** * py3status [mpris] module: a shallow embedding and its properties

    The development follows [py3status/modules/mpris.py], read as Python 3.
    Python values are embedded as Rocq data, the D-Bus session as a record
    of answers (a snapshot: what the bus answers to a request is fixed for
    the duration of one entry-point call), and Python exceptions as an
    explicit outcome.

    Strings are Rocq [string]s, read as the UTF-8 bytes of the Python text.
    Operations that count characters are exact on ASCII text; where the
    source counts characters of text that is not ASCII the embedding answers
    [Unmodelled] instead of guessing. *)

From Stdlib Require Import Ascii.
From stdpp Require Import base numbers list strings gmap pretty.
Local Open Scope string_scope.
Local Open Scope list_scope.
Local Open Scope Z_scope.

(** ** Outcomes of Python code *)

Inductive exn :=
  | NameError | AttributeError | TypeError | KeyError | ValueError
  | IndexError | OverflowError | UnboundLocalError
  | GError (* any error raised by the bus transport *).

(** [Unmodelled] marks a run that leaves the fragment of Python embedded
    here (floating point rounding, characters outside ASCII where characters
    are counted, the format mini-language beyond plain fields).  It is
    neither a normal return nor an exception: no [except] clause gets it. *)
Inductive outcome (A : Type) :=
  | Ok (a : A)
  | Raise (e : exn)
  | Unmodelled.

Arguments Ok {A} a.
Arguments Raise {A} e.
Arguments Unmodelled {A}.

Global Instance exn_eq_dec : EqDecision exn.
Proof. solve_decision. Defined.

Global Instance outcome_ret : MRet outcome := λ A a, Ok a.

Global Instance outcome_bind : MBind outcome := λ A B f m,
  match m with
  | Ok a => f a
  | Raise e => Raise e
  | Unmodelled => Unmodelled
  end.

Definition returns {A} (m : outcome A) : Prop := ∃ a, m = Ok a.

(** ** Module constants (lines 91-96) *)

Definition SERVICE_BUS : string := "org.mpris.MediaPlayer2".

Definition INTERFACE : string := SERVICE_BUS +:+ ".Player".

Definition SERVICE_BUS_URL : string := "/org/mpris/MediaPlayer2".

Definition UNKNOWN : string := "Unknown".

Definition UNKNOWN_TIME : string := "-:--".

(** ** Python string primitives used by the module *)

Definition newline : ascii := "010"%char.

Definition is_ascii (c : ascii) : bool := (Ascii.N_of_ascii c <? 128)%N.

Fixpoint all_ascii (s : string) : bool :=
  match s with
  | EmptyString => true
  | String c s' => is_ascii c && all_ascii s'
  end.

(** [needle in s] on text. *)
Fixpoint contains (needle s : string) : bool :=
  String.prefix needle s ||
  match s with
  | EmptyString => false
  | String _ s' => contains needle s'
  end.

(** [s.split(sep)] for a one-character separator. *)
Fixpoint split (sep : ascii) (s : string) : list string :=
  match s with
  | EmptyString => [EmptyString]
  | String c s' =>
      if Ascii.eqb c sep then EmptyString :: split sep s'
      else match split sep s' with
           | [] => [String c EmptyString]
           | w :: ws => String c w :: ws
           end
  end.

Fixpoint drop_prefix (p s : string) : option string :=
  match p, s with
  | EmptyString, _ => Some s
  | String a p', String b s' => if Ascii.eqb a b then drop_prefix p' s' else None
  | String _ _, EmptyString => None
  end.

Fixpoint string_drop (n : nat) (s : string) : string :=
  match n, s with
  | O, _ => s
  | S n', String _ s' => string_drop n' s'
  | S _, EmptyString => EmptyString
  end.

Fixpoint string_take (n : nat) (s : string) : string :=
  match n, s with
  | S n', String c s' => String c (string_take n' s')
  | _, _ => EmptyString
  end.

(** [re.sub(SERVICE_BUS_REGEX, '', name)] with
    [SERVICE_BUS_REGEX = '^org\.mpris\.MediaPlayer2.'] (line 94): the
    pattern is anchored at the start and its last [.] takes any one
    character except a newline. *)
Definition strip_service_prefix (name : string) : string :=
  match drop_prefix SERVICE_BUS name with
  | Some (String c rest) => if Ascii.eqb c newline then name else rest
  | _ => name
  end.

(** [s] is a dot and three characters other than newline. *)
Definition dot_three (s : string) : bool :=
  match s with
  | String "." (String a (String b (String c EmptyString))) =>
      negb (Ascii.eqb a newline) && negb (Ascii.eqb b newline)
      && negb (Ascii.eqb c newline)
  | _ => false
  end.

(** [re.sub(r'\....$', '', title)] (line 255): the pattern matches a dot
    and three characters other than newline, at the end of the text or just
    before a final newline.  The two places exclude each other, so at most
    one match is removed.  Characters are counted, hence the ASCII guard on
    the tail the pattern can reach. *)
Definition strip_extension (s : string) : outcome string :=
  let n := String.length s in
  if negb (all_ascii (string_drop (n - 5) s)) then Unmodelled
  else if dot_three (string_drop (n - 4) s) then mret (string_take (n - 4) s)
  else if (5 <=? n)%nat && dot_three (string_take 4 (string_drop (n - 5) s))
          && bool_decide (string_drop (n - 1) s = String newline EmptyString)
       then mret (string_take (n - 5) s +:+ String newline EmptyString)
  else mret s.

(** ** Time rendering (lines 99-107) *)

Definition pad2 (n : Z) : string :=
  if n <? 10 then "0" +:+ pretty n else pretty n.

(** [str(timedelta(seconds=seconds))] for an integer argument: the
    constructor normalises to days and seconds of the day and refuses more
    than 999999999 days; [__str__] prints [H:MM:SS] behind an optional
    ["D day(s), "]. *)
Definition timedelta_str (seconds : Z) : outcome string :=
  let days := seconds `div` 86400 in
  let secs := seconds `mod` 86400 in
  if 999999999 <? Z.abs days then Raise OverflowError
  else
    let hh := secs `div` 3600 in
    let mm := (secs `div` 60) `mod` 60 in
    let ss := secs `mod` 60 in
    let s := pretty hh +:+ ":" +:+ pad2 mm +:+ ":" +:+ pad2 ss in
    mret (if days =? 0 then s
          else pretty days +:+ " day" +:+ (if Z.abs days =? 1 then "" else "s")
               +:+ ", " +:+ s).

(** [int(microseconds / 1000000)]: true division followed by truncation
    toward zero.  The quotient goes through a double; below 2^53 in absolute
    value the detour is exact, above it the rounding is left out. *)
Definition seconds_of_micro (microseconds : Z) : outcome Z :=
  if Z.abs microseconds <? 2 ^ 53 then mret (microseconds `quot` 1000000)
  else Unmodelled.

(** [time[0]] *)
Definition first_char (s : string) : outcome ascii :=
  match s with
  | EmptyString => Raise IndexError
  | String c _ => mret c
  end.

Definition strip_leading_zeros (time : string) : outcome string :=
  c ← first_char time;
  if Ascii.eqb c "0" then
    let time := string_drop 2 time in
    c ← first_char time;
    if Ascii.eqb c "0" then mret (string_drop 1 time) else mret time
  else mret time.

Definition time_str_of_int (microseconds : Z) : outcome string :=
  seconds ← seconds_of_micro microseconds;
  time ← timedelta_str seconds;
  strip_leading_zeros time.

(** ** Values read over the bus *)

(** What a property of variant type unpacks to.  Text, integers and arrays
    are embedded; doubles, booleans and nested dictionaries are not. *)
#[warnings="-register-all"] Inductive pyval :=
  | PStr (s : string)
  | PInt (z : Z)
  | PList (l : list pyval).

(** Truth value of [v] as tested by [v or default]. *)
Definition truthy (v : pyval) : bool :=
  match v with
  | PStr EmptyString => false
  | PInt 0 => false
  | PList [] => false
  | _ => true
  end.

(** [o or default], [o] the result of [dict.get] ([None] when absent). *)
Definition get_or (o : option pyval) (default : pyval) : pyval :=
  match o with
  | Some v => if truthy v then v else default
  | None => default
  end.

(** [c or default] for an optional colour setting. *)
Definition color_or (c : option string) (default : string) : string :=
  match c with
  | Some s => if bool_decide (s = "") then default else s
  | None => default
  end.

(** ['file://' not in url], [url] the result of [dict.get]. *)
Definition not_local_file (url : option pyval) : outcome bool :=
  match url with
  | None => Raise TypeError
  | Some (PStr s) => mret (negb (contains "file://" s))
  | Some (PInt _) => Raise TypeError
  | Some (PList l) =>
      mret (negb (existsb (λ v, match v with
                                | PStr s => bool_decide (s = "file://")
                                | _ => false
                                end) l))
  end.

(** [v[0]] *)
Definition item0 (v : pyval) : outcome pyval :=
  match v with
  | PList (x :: _) => mret x
  | PList [] => Raise IndexError
  | PStr EmptyString => Raise IndexError
  | PStr (String c _) =>
      if is_ascii c then mret (PStr (String c EmptyString)) else Unmodelled
  | PInt _ => Raise TypeError
  end.

(** [_get_time_str] (lines 99-107) on any value: only a number divides. *)
Definition _get_time_str (microseconds : pyval) : outcome string :=
  match microseconds with
  | PInt z => time_str_of_int z
  | PStr _ | PList _ => Raise TypeError
  end.

(** ** The bus and the players on it *)

Inductive command := PlayPause | Stop | Next | Previous.

Global Instance command_eq_dec : EqDecision command.
Proof. solve_decision. Defined.

(** A proxy object for one player: what each property read and each method
    call answers. *)
Record Player := {
  Identity : outcome string;
  PlaybackStatus : outcome string;
  Position : outcome pyval;
  Metadata : outcome (gmap string pyval);
  invoke : command → outcome unit
}.

(** The session bus: [ListNames] is the answer to
    [get('org.freedesktop.DBus').ListNames()], [get] the answer to
    [get(bus_name, SERVICE_BUS_URL)]. *)
Record Bus := {
  ListNames : outcome (list string);
  get : string → outcome Player
}.

(** ** Configuration (lines 113-131) and host data *)

Record Py3status := {
  button_play : option Z;
  button_stop : option Z;
  button_next : option Z;
  button_previous : option Z;
  buttons_control : option string;
  buttons_order : string;
  color_paused : option string;
  color_playing : option string;
  color_stopped : option string;
  format : string;
  format_stream : string;
  format_none : string;
  state_pause : string;
  state_play : string;
  state_stop : string;
  state_next : string;
  state_previous : string;
  player_priority : option string;
  (** [self._player]: unset before the first refresh; then [None] or the
      proxy of the selected player. *)
  _player : option (option Player)
}.

Definition defaults : Py3status := {|
  button_play := Some 1;
  button_stop := None;
  button_next := Some 4;
  button_previous := Some 5;
  buttons_control := None;
  buttons_order := "previous,play,next";
  color_paused := None;
  color_playing := None;
  color_stopped := None;
  format := "{state} {artist} - {title}";
  format_stream := "{state} {title}";
  format_none := "no player running";
  state_pause := "▮▮";
  state_play := "▶";
  state_stop := "◾";
  state_next := "»";
  state_previous := "«";
  player_priority := None;
  _player := None
|}.

Definition set_player (self : Py3status) (p : option Player) : Py3status := {|
  button_play := button_play self;
  button_stop := button_stop self;
  button_next := button_next self;
  button_previous := button_previous self;
  buttons_control := buttons_control self;
  buttons_order := buttons_order self;
  color_paused := color_paused self;
  color_playing := color_playing self;
  color_stopped := color_stopped self;
  format := format self;
  format_stream := format_stream self;
  format_none := format_none self;
  state_pause := state_pause self;
  state_play := state_play self;
  state_stop := state_stop self;
  state_next := state_next self;
  state_previous := state_previous self;
  player_priority := player_priority self;
  _player := Some p
|}.

Record I3sConfig := {
  color_good : string;
  color_degraded : string;
  color_bad : string;
  interval : Z
}.

(** ** Player lookup and state (lines 133-165)

    The functions that read [self._dbus] take the bus opened at line 311 as
    an argument. *)

(** [except Exception] turns every error of the lookup into [None]. *)
Definition _get_player (bus : Bus) (player : string) : outcome (option Player) :=
  match get bus (SERVICE_BUS +:+ "." +:+ player) with
  | Ok p => mret (Some p)
  | Raise _ => mret None
  | Unmodelled => Unmodelled
  end.

Definition _get_state (bus : Bus) (player : string) : outcome string :=
  p ← _get_player bus player;
  match p with
  | None => mret "None"
  | Some p => PlaybackStatus p
  end.

Definition _get_state_format (self : Py3status) (i3s_config : I3sConfig)
    (player : Player) : outcome (string * string) :=
  playback_status ← PlaybackStatus player;
  if bool_decide (playback_status = "Playing") then
    mret (color_or (color_playing self) (color_good i3s_config), state_play self)
  else if bool_decide (playback_status = "Paused") then
    mret (color_or (color_paused self) (color_degraded i3s_config), state_pause self)
  else
    mret (color_or (color_stopped self) (color_bad i3s_config), state_stop self).

(** ** Player detection (lines 167-209) *)

(** Lines 177-180. *)
Fixpoint running_players (names : list string) : list string :=
  match names with
  | [] => []
  | player :: names =>
      if contains SERVICE_BUS player
      then strip_service_prefix player :: running_players names
      else running_players names
  end.

(** [players.remove(x)]: the first occurrence goes. *)
Fixpoint remove_first (x : string) (players : list string) : list string :=
  match players with
  | [] => []
  | y :: players => if bool_decide (x = y) then players else y :: remove_first x players
  end.

(** Lines 187-190, on the pair ([players], [players_prioritized]). *)
Fixpoint prioritize (player_priority players players_prioritized : list string)
    : list string * list string :=
  match player_priority with
  | [] => (players, players_prioritized)
  | player_name :: rest =>
      if bool_decide (player_name ∈ players)
      then prioritize rest (remove_first player_name players)
                      (players_prioritized ++ [player_name])
      else prioritize rest players players_prioritized
  end.

(** Lines 182-192. *)
Definition candidate_order (priority : option string) (players : list string)
    : list string :=
  match priority with
  | None => players
  | Some p =>
      let player_priority := split "," p in
      let '(players, players_prioritized) := prioritize player_priority players [] in
      if bool_decide ("*" ∈ player_priority)
      then players_prioritized ++ players
      else players_prioritized
  end.

(** Lines 194-209. *)
Fixpoint scan (bus : Bus) (players_prioritized players_paused players_stopped : list string)
    : outcome string :=
  match players_prioritized with
  | [] =>
      match players_paused, players_stopped with
      | p :: _, _ => mret p
      | [], s :: _ => mret s
      | [], [] => mret "None"
      end
  | player_name :: rest =>
      player_state ← _get_state bus player_name;
      if bool_decide (player_state = "Playing") then mret player_name
      else if bool_decide (player_state = "Paused")
      then scan bus rest (players_paused ++ [player_name]) players_stopped
      else scan bus rest players_paused (players_stopped ++ [player_name])
  end.

Definition _detect_running_player (self : Py3status) (bus : Bus) : outcome string :=
  names ← ListNames bus;
  let players := running_players names in
  scan bus (candidate_order (player_priority self) players) [] [].

(** ** [str.format] with keyword arguments (line 260)

    Embedded: literal text, the escapes [{{] and [}}], and replacement
    fields that are a bare name.  A field with a conversion, a format
    specification, an attribute or an index, a name that is not ASCII and
    the printing of an array are outside ([Unmodelled]). *)

Definition is_digit (c : ascii) : bool :=
  (48 <=? Ascii.N_of_ascii c)%N && (Ascii.N_of_ascii c <=? 57)%N.

Fixpoint all_digits (s : string) : bool :=
  match s with
  | EmptyString => true
  | String c s' => is_digit c && all_digits s'
  end.

(** [format(value, '')] *)
Definition format_value (v : pyval) : outcome string :=
  match v with
  | PStr s => mret s
  | PInt z => mret (pretty z)
  | PList _ => Unmodelled
  end.

(** A finished field name: an empty or numeric name asks for a positional
    argument and there is none; any other name is looked up among the
    keywords. *)
Definition format_field (kwargs : string → option pyval) (name : string)
    : outcome string :=
  if negb (all_ascii name) then Unmodelled
  else if all_digits name then
    if (String.length name <=? 18)%nat then Raise IndexError else Unmodelled
  else match kwargs name with
       | Some v => format_value v
       | None => Raise KeyError
       end.

Definition beyond_plain_field (c : ascii) : bool :=
  bool_decide (c ∈ ["!"; ":"; "."; "["]%char).

(** Where the scan of a template stands: in literal text, behind a [}]
    met in literal text, or inside a replacement field of which [name] was
    read so far. *)
Inductive fmode :=
  | Text
  | Closing
  | Field (name : string).

(** The template is read once, left to right, and rendered on the way, so
    the first thing that goes wrong decides the outcome. *)
Fixpoint str_format (kwargs : string → option pyval) (mode : fmode)
    (template : string) : outcome string :=
  match template with
  | EmptyString =>
      match mode with
      | Text => mret ""
      | Closing | Field _ => Raise ValueError
      end
  | String c rest =>
      match mode with
      | Text =>
          if Ascii.eqb c "{" then str_format kwargs (Field "") rest
          else if Ascii.eqb c "}" then str_format kwargs Closing rest
          else out ← str_format kwargs Text rest; mret (String c out)
      | Closing =>
          if Ascii.eqb c "}"
          then out ← str_format kwargs Text rest; mret (String "}" out)
          else Raise ValueError
      | Field name =>
          if Ascii.eqb c "}" then
            text ← format_field kwargs name;
            out ← str_format kwargs Text rest;
            mret (text +:+ out)
          else if Ascii.eqb c "{" then
            if bool_decide (name = "")
            then out ← str_format kwargs Text rest; mret (String "{" out)
            else Unmodelled
          else if beyond_plain_field c then Unmodelled
          else str_format kwargs (Field (name +:+ String c "")) rest
      end
  end.

(** The scan emits at least one literal character. *)
Fixpoint has_literal (mode : fmode) (template : string) : bool :=
  match template with
  | EmptyString => false
  | String c rest =>
      match mode with
      | Text =>
          if Ascii.eqb c "{" then has_literal (Field "") rest
          else if Ascii.eqb c "}" then has_literal Closing rest
          else true
      | Closing => Ascii.eqb c "}"
      | Field name =>
          if Ascii.eqb c "}" then has_literal Text rest
          else if Ascii.eqb c "{" then bool_decide (name = "")
          else has_literal (Field (name +:+ String c "")) rest
      end
  end.

(** ** Text rendering (lines 211-266) *)

(** The local variables of [_get_text]; [v_color] is unbound at first. *)
Record locals := {
  v_is_stream : bool;
  v_player : string;
  v_state : string;
  v_artist : pyval;
  v_album : pyval;
  v_length : string;
  v_time : string;
  v_title : pyval;
  v_color : option string
}.

(** Lines 215-222. *)
Definition initial_locals : locals := {|
  v_is_stream := false;
  v_player := UNKNOWN;
  v_state := UNKNOWN;
  v_artist := PStr UNKNOWN;
  v_album := PStr UNKNOWN;
  v_length := UNKNOWN_TIME;
  v_time := UNKNOWN_TIME;
  v_title := PStr UNKNOWN;
  v_color := None
|}.

Definition set_is_stream (b : bool) (l : locals) : locals :=
  {| v_is_stream := b; v_player := v_player l; v_state := v_state l;
     v_artist := v_artist l; v_album := v_album l; v_length := v_length l;
     v_time := v_time l; v_title := v_title l; v_color := v_color l |}.

Definition set_identity (s : string) (l : locals) : locals :=
  {| v_is_stream := v_is_stream l; v_player := s; v_state := v_state l;
     v_artist := v_artist l; v_album := v_album l; v_length := v_length l;
     v_time := v_time l; v_title := v_title l; v_color := v_color l |}.

Definition set_state (s : string) (l : locals) : locals :=
  {| v_is_stream := v_is_stream l; v_player := v_player l; v_state := s;
     v_artist := v_artist l; v_album := v_album l; v_length := v_length l;
     v_time := v_time l; v_title := v_title l; v_color := v_color l |}.

Definition set_artist (v : pyval) (l : locals) : locals :=
  {| v_is_stream := v_is_stream l; v_player := v_player l; v_state := v_state l;
     v_artist := v; v_album := v_album l; v_length := v_length l;
     v_time := v_time l; v_title := v_title l; v_color := v_color l |}.

Definition set_album (v : pyval) (l : locals) : locals :=
  {| v_is_stream := v_is_stream l; v_player := v_player l; v_state := v_state l;
     v_artist := v_artist l; v_album := v; v_length := v_length l;
     v_time := v_time l; v_title := v_title l; v_color := v_color l |}.

Definition set_length (s : string) (l : locals) : locals :=
  {| v_is_stream := v_is_stream l; v_player := v_player l; v_state := v_state l;
     v_artist := v_artist l; v_album := v_album l; v_length := s;
     v_time := v_time l; v_title := v_title l; v_color := v_color l |}.

Definition set_time (s : string) (l : locals) : locals :=
  {| v_is_stream := v_is_stream l; v_player := v_player l; v_state := v_state l;
     v_artist := v_artist l; v_album := v_album l; v_length := v_length l;
     v_time := s; v_title := v_title l; v_color := v_color l |}.

Definition set_title (v : pyval) (l : locals) : locals :=
  {| v_is_stream := v_is_stream l; v_player := v_player l; v_state := v_state l;
     v_artist := v_artist l; v_album := v_album l; v_length := v_length l;
     v_time := v_time l; v_title := v; v_color := v_color l |}.

Definition set_color (c : string) (l : locals) : locals :=
  {| v_is_stream := v_is_stream l; v_player := v_player l; v_state := v_state l;
     v_artist := v_artist l; v_album := v_album l; v_length := v_length l;
     v_time := v_time l; v_title := v_title l; v_color := Some c |}.

(** One statement of the [try] block: evaluate [m]; on success go on with
    [k], otherwise stop with the locals as they are. *)
Definition step {A} (l : locals) (m : outcome A)
    (k : A → locals * outcome unit) : locals * outcome unit :=
  match m with
  | Ok a => k a
  | Raise e => (l, Raise e)
  | Unmodelled => (l, Unmodelled)
  end.

(** Lines 232-249. *)
Definition metadata_block (metadata : gmap string pyval) (l : locals)
    : locals * outcome unit :=
  if (0 <? size metadata)%nat then
    step l (not_local_file (metadata !! "xesam:url")) (λ b,
    let l := set_is_stream b l in
    let l := set_title (get_or (metadata !! "xesam:title") (PStr UNKNOWN)) l in
    let l := set_album (get_or (metadata !! "xesam:album") (PStr UNKNOWN)) l in
    let after_artist (l : locals) :=
      match metadata !! "mpris:length" with
      | Some _length_ms =>
          step l (_get_time_str _length_ms) (λ t, (set_length t l, Ok ()))
      | None => (l, Ok ())
      end in
    match metadata !! "xesam:artist" with
    | Some a => step l (item0 a) (λ a0, after_artist (set_artist a0 l))
    | None => after_artist (set_is_stream true l)
    end)
  else (set_is_stream true l, Ok ()).

(** Lines 225-249, the body of the [try]. *)
Definition try_block (self : Py3status) (i3s_config : I3sConfig)
    (player : Player) (l : locals) : locals * outcome unit :=
  step l (Identity player) (λ identity,
  let l := set_identity identity l in
  step l (_get_state_format self i3s_config player) (λ '(color, state),
  let l := set_state state (set_color color l) in
  step l (Position player) (λ _time_ms,
  step l (_get_time_str _time_ms) (λ time,
  let l := set_time time l in
  step l (Metadata player) (λ metadata,
  metadata_block metadata l))))).

(** Lines 224-251: [except Exception] binds the colour and goes on. *)
Definition try_except (self : Py3status) (i3s_config : I3sConfig)
    (player : Player) : outcome locals :=
  match try_block self i3s_config player initial_locals with
  | (l, Ok _) => mret l
  | (l, Raise _) => mret (set_color (color_bad i3s_config) l)
  | (_, Unmodelled) => Unmodelled
  end.

Definition keywords (l : locals) (name : string) : option pyval :=
  if bool_decide (name = "player") then Some (PStr (v_player l))
  else if bool_decide (name = "state") then Some (PStr (v_state l))
  else if bool_decide (name = "album") then Some (v_album l)
  else if bool_decide (name = "artist") then Some (v_artist l)
  else if bool_decide (name = "length") then Some (PStr (v_length l))
  else if bool_decide (name = "time") then Some (PStr (v_time l))
  else if bool_decide (name = "title") then Some (v_title l)
  else None.

(** [re.sub] of line 255 wants text. *)
Definition sub_extension (title : pyval) : outcome pyval :=
  match title with
  | PStr s => s' ← strip_extension s; mret (PStr s')
  | PInt _ | PList _ => Raise TypeError
  end.

(** Lines 253-266. *)
Definition render (self : Py3status) (l : locals) : outcome (string * string) :=
  '(l, format) ←
    (if v_is_stream l then
       title ← sub_extension (v_title l);
       mret (set_title title l, format_stream self)
     else mret (l, format self));
  text ← str_format (keywords l) Text format;
  match v_color l with
  | Some color => mret (text, color)
  | None => Raise UnboundLocalError
  end.

Definition _get_text (self : Py3status) (i3s_config : I3sConfig)
    (player : Player) : outcome (string * string) :=
  l ← try_except self i3s_config player;
  render self l.

(** ** Control buttons (lines 268-303) *)

Record entry := {
  full_text : string;
  color : string;
  index : string
}.

Global Instance entry_eq_dec : EqDecision entry.
Proof. solve_decision. Defined.

Definition button_entry (glyph name : string) : entry :=
  {| full_text := " " +:+ glyph +:+ " "; color := "#CCCCCC"; index := name |}.

(** Lines 277-301. *)
Fixpoint buttons_loop (self : Py3status) (state : string)
    (buttons_order : list string) : list entry :=
  match buttons_order with
  | [] => []
  | button :: rest =>
      if bool_decide (button = "play")
      then button_entry state "play" :: buttons_loop self state rest
      else if bool_decide (button = "stop")
      then button_entry (state_stop self) "stop" :: buttons_loop self state rest
      else if bool_decide (button = "next")
      then button_entry (state_next self) "next" :: buttons_loop self state rest
      else if bool_decide (button = "previous")
      then button_entry (state_previous self) "previous" :: buttons_loop self state rest
      else buttons_loop self state rest
  end.

Definition _get_response_buttons (self : Py3status) (player : Player)
    : outcome (list entry) :=
  playback_status ← PlaybackStatus player;
  let state :=
    if bool_decide (playback_status = "Playing") then state_pause self
    else state_play self in
  mret (buttons_loop self state (split "," (buttons_order self))).

(** ** The refresh entry point (lines 305-343) *)

Record response := {
  cached_until : Z;
  composite : list entry
}.

(** Names bound at module level by lines 86-110.  [time] is not one of
    them: the module imports [timedelta], [re] and [SessionBus] only, and
    [time] is no builtin either. *)
Definition module_globals : list string :=
  ["timedelta"; "re"; "SessionBus"; "SERVICE_BUS"; "INTERFACE";
   "SERVICE_BUS_URL"; "SERVICE_BUS_REGEX"; "UNKNOWN"; "UNKNOWN_TIME";
   "_get_time_str"; "Py3status"].

(** Reading a name that is no local variable of the function. *)
Definition global_name (name : string) : outcome unit :=
  if bool_decide (name ∈ module_globals) then mret () else Raise NameError.

(** Lines 316-324: the text, its colour, the control side and the buttons
    ([None] while the variable is unbound). *)
Definition text_and_buttons (self : Py3status) (i3s_config : I3sConfig)
    (p : option Player)
    : outcome (option string * string * string * option (list entry)) :=
  match p with
  | None => mret (None, format_none self, color_bad i3s_config, None)
  | Some player =>
      '(text, color) ← _get_text self i3s_config player;
      response_buttons ← _get_response_buttons self player;
      let buttons_control :=
        if bool_decide (response_buttons = []) then None
        else buttons_control self in
      mret (buttons_control, text, color, Some response_buttons)
  end.

Definition unbound_check (response_buttons : option (list entry))
    : outcome (list entry) :=
  match response_buttons with
  | Some l => mret l
  | None => Raise UnboundLocalError
  end.

(** Lines 326-341. *)
Definition compose (cached_until : Z) (buttons_control : option string)
    (text color : string) (response_buttons : option (list entry))
    : outcome response :=
  let response_text := {| full_text := text; color := color; index := "text" |} in
  if bool_decide (buttons_control = Some "left") then
    buttons ← unbound_check response_buttons;
    mret {| cached_until := cached_until; composite := buttons ++ [response_text] |}
  else if bool_decide (buttons_control = Some "right") then
    buttons ← unbound_check response_buttons;
    mret {| cached_until := cached_until; composite := [response_text] ++ buttons |}
  else
    mret {| cached_until := cached_until; composite := [response_text] |}.

(** Lines 311-343, with [cached_until] of line 310 given.  [session] is the
    outcome of [SessionBus()].  The first component is [self] as the call
    leaves it: [self._player] is assigned at line 314 whatever happens
    later. *)
Definition mpris_body (self : Py3status) (i3s_config : I3sConfig)
    (cached_until : Z) (session : outcome Bus) : Py3status * outcome response :=
  match (bus ← session;
         running_player ← _detect_running_player self bus;
         p ← _get_player bus running_player;
         mret p) with
  | Ok p =>
      let self := set_player self p in
      (self,
       '(buttons_control, text, color, response_buttons) ←
          text_and_buttons self i3s_config p;
       compose cached_until buttons_control text color response_buttons)
  | Raise e => (self, Raise e)
  | Unmodelled => (self, Unmodelled)
  end.

(** Lines 305-343.  [clock] is what a call of the library function
    [time.time] would answer; line 310 reads the name [time] first. *)
Definition mpris (self : Py3status) (i3s_config : I3sConfig) (clock : Z)
    (session : outcome Bus) : Py3status * outcome response :=
  match global_name "time" with
  | Ok _ => mpris_body self i3s_config (clock + interval i3s_config) session
  | Raise e => (self, Raise e)
  | Unmodelled => (self, Unmodelled)
  end.

(** ** Click handling (lines 345-370) *)

Record click_event := {
  ev_index : string;
  ev_button : Z
}.

(** [self._player.M()]: the method calls sent to the player, in order, and
    how the statement ends.  Without a player object there is no method to
    call. *)
Definition call_player (self : Py3status) (c : command)
    : list command * outcome unit :=
  match _player self with
  | Some (Some p) => ([c], invoke p c)
  | Some None | None => ([], Raise AttributeError)
  end.

Definition on_click (self : Py3status) (event : click_event)
    : list command * outcome unit :=
  let index := ev_index event in
  let button := ev_button event in
  if bool_decide (index = "text") then
    if bool_decide (button_play self = Some button) then call_player self PlayPause
    else if bool_decide (button_stop self = Some button) then call_player self Stop
    else if bool_decide (button_next self = Some button) then call_player self Next
    else if bool_decide (button_previous self = Some button) then call_player self Previous
    else ([], Ok ())
  else
    if bool_decide (button = 1) then
      if bool_decide (index = "play") then call_player self PlayPause
      else if bool_decide (index = "stop") then call_player self Stop
      else if bool_decide (index = "next") then call_player self Next
      else if bool_decide (index = "previous") then call_player self Previous
      else ([], Ok ())
    else ([], Ok ()).

(** ** Test doubles *)

Definition bus_error {A} : outcome A := Raise GError.

Definition i3s : I3sConfig :=
  {| color_good := "#00FF00"; color_degraded := "#FFFF00";
     color_bad := "#FF0000"; interval := 5 |}.

Definition song : gmap string pyval :=
  {[ "xesam:url" := PStr "file:///music/a.flac";
     "xesam:title" := PStr "Song";
     "xesam:album" := PStr "Album";
     "xesam:artist" := PList [PStr "Band"];
     "mpris:length" := PInt 225000000 ]}.

Definition player_with (status : string) : Player :=
  {| Identity := Ok "VLC"; PlaybackStatus := Ok status;
     Position := Ok (PInt 45000000); Metadata := Ok song;
     invoke := λ _, Ok () |}.

(** A bus on which the given players are registered under
    [org.mpris.MediaPlayer2.<name>], next to the bus daemon itself. *)
Definition bus_of (players : list (string * Player)) : Bus :=
  {| ListNames := Ok ("org.freedesktop.DBus"
                      :: ((λ np, SERVICE_BUS +:+ "." +:+ np.1) <$> players));
     get := λ name,
       match list_find (λ np, SERVICE_BUS +:+ "." +:+ np.1 = name) players with
       | Some (_, (_, p)) => Ok p
       | None => bus_error
       end |}.

Definition mpd_paused_vlc_playing : Bus :=
  bus_of [("vlc", player_with "Playing"); ("mpd", player_with "Paused")].

Definition with_priority (p : string) : Py3status := {|
  button_play := button_play defaults;
  button_stop := button_stop defaults;
  button_next := button_next defaults;
  button_previous := button_previous defaults;
  buttons_control := buttons_control defaults;
  buttons_order := buttons_order defaults;
  color_paused := color_paused defaults;
  color_playing := color_playing defaults;
  color_stopped := color_stopped defaults;
  format := format defaults;
  format_stream := format_stream defaults;
  format_none := format_none defaults;
  state_pause := state_pause defaults;
  state_play := state_play defaults;
  state_stop := state_stop defaults;
  state_next := state_next defaults;
  state_previous := state_previous defaults;
  player_priority := Some p;
  _player := None
|}.

Definition only_mpd_playing : Bus := bus_of [("mpd", player_with "Playing")].

(** vlc is on the bus and answers the lookup, but reading its status fails;
    mpd is playing. *)
Definition vlc_vanishing : Bus :=
  bus_of [("vlc", {| Identity := Ok "VLC"; PlaybackStatus := bus_error;
                     Position := bus_error; Metadata := bus_error;
                     invoke := λ _, bus_error |});
          ("mpd", player_with "Playing")].

(** vlc is listed but the lookup fails; mpd is playing. *)
Definition vlc_unreachable : Bus :=
  {| ListNames := Ok ["org.mpris.MediaPlayer2.vlc"; "org.mpris.MediaPlayer2.mpd"];
     get := λ name,
       if bool_decide (name = "org.mpris.MediaPlayer2.mpd")
       then Ok (player_with "Playing") else bus_error |}.

Definition vlc_selected : Py3status := set_player defaults (Some (player_with "Playing")).

Definition with_side (side : string) : Py3status := {|
  button_play := button_play defaults;
  button_stop := button_stop defaults;
  button_next := button_next defaults;
  button_previous := button_previous defaults;
  buttons_control := Some side;
  buttons_order := buttons_order defaults;
  color_paused := color_paused defaults;
  color_playing := color_playing defaults;
  color_stopped := color_stopped defaults;
  format := format defaults;
  format_stream := format_stream defaults;
  format_none := format_none defaults;
  state_pause := state_pause defaults;
  state_play := state_play defaults;
  state_stop := state_stop defaults;
  state_next := state_next defaults;
  state_previous := state_previous defaults;
  player_priority := player_priority defaults;
  _player := None
|}.

Definition left_payload : response :=
  {| cached_until := 105;
     composite := [button_entry "«" "previous"; button_entry "▮▮" "play";
                   button_entry "»" "next";
                   {| full_text := "▶ Band - Song"; color := "#00FF00";
                      index := "text" |}] |}.

Definition no_answer : Player :=
  {| Identity := bus_error; PlaybackStatus := bus_error; Position := bus_error;
     Metadata := bus_error; invoke := λ _, bus_error |}.

Definition with_formats (track stream : string) : Py3status := {|
  button_play := button_play defaults;
  button_stop := button_stop defaults;
  button_next := button_next defaults;
  button_previous := button_previous defaults;
  buttons_control := buttons_control defaults;
  buttons_order := buttons_order defaults;
  color_paused := color_paused defaults;
  color_playing := color_playing defaults;
  color_stopped := color_stopped defaults;
  format := track;
  format_stream := stream;
  format_none := format_none defaults;
  state_pause := state_pause defaults;
  state_play := state_play defaults;
  state_stop := state_stop defaults;
  state_next := state_next defaults;
  state_previous := state_previous defaults;
  player_priority := player_priority defaults;
  _player := None
|}.

Definition player_with_metadata (md : gmap string pyval) : Player :=
  {| Identity := Ok "VLC"; PlaybackStatus := Ok "Playing";
     Position := Ok (PInt 45000000); Metadata := Ok md;
     invoke := λ _, Ok () |}.

(** A stream whose title comes as an array of text. *)
Definition title_array : gmap string pyval :=
  {[ "xesam:url" := PStr "http://radio.example/live";
     "xesam:title" := PList [PStr "Live"] ]}.

Definition video_no_url : gmap string pyval :=
  {[ "xesam:title" := PStr "Movie"; "mpris:length" := PInt 5400000000 ]}.

Definition video_with_url : gmap string pyval :=
  {[ "xesam:url" := PStr "file:///videos/movie.mkv";
     "xesam:title" := PStr "Movie"; "mpris:length" := PInt 5400000000 ]}.

(** * Vocabulary of the properties *)

(** The text [H:MM:SS] of a number of seconds within one day. *)
Definition hms (secs : Z) : string :=
  pretty (secs `div` 3600) +:+ ":" +:+ pad2 ((secs `div` 60) `mod` 60)
  +:+ ":" +:+ pad2 (secs `mod` 60).

(** The candidate order in the words of C2: the wildcard stands, at its
    place in the list, for the pool as it is when the list gets there. *)
Fixpoint candidate_order_spec (player_priority pool : list string) : list string :=
  match player_priority with
  | [] => []
  | name :: rest =>
      if bool_decide (name = "*") then pool ++ candidate_order_spec rest []
      else if bool_decide (name ∈ pool)
      then name :: candidate_order_spec rest (remove_first name pool)
      else candidate_order_spec rest pool
  end.

Inductive bucket := Playing | Paused | Stopped.

Global Instance bucket_eq_dec : EqDecision bucket.
Proof. solve_decision. Defined.

(** The three ways line 197-202 tell states apart: everything that is
    neither ['Playing'] nor ['Paused'] counts as stopped, the ['None'] of a
    player that cannot be reached included. *)
Definition classify (player_state : string) : bucket :=
  if bool_decide (player_state = "Playing") then Playing
  else if bool_decide (player_state = "Paused") then Paused
  else Stopped.

(** Candidate [c] is found in bucket [b]: its state is read and falls
    into [b]. *)
Definition found (bus : Bus) (b : bucket) (c : string) : bool :=
  match _get_state bus c with
  | Ok st => bool_decide (classify st = b)
  | _ => false
  end.

(** The selection in the words of C1. *)
Definition selection_spec (bus : Bus) (candidates : list string) : string :=
  match head (filter (found bus Playing) candidates) with
  | Some c => c
  | None =>
      match head (filter (found bus Paused) candidates) with
      | Some c => c
      | None =>
          match head (filter (found bus Stopped) candidates) with
          | Some c => c
          | None => "None"
          end
      end
  end.

Definition glyph_index (c : command) : string :=
  match c with
  | PlayPause => "play"
  | Stop => "stop"
  | Next => "next"
  | Previous => "previous"
  end.

(** The mouse button configured for a command on the text. *)
Definition binding (self : Py3status) (c : command) : option Z :=
  match c with
  | PlayPause => button_play self
  | Stop => button_stop self
  | Next => button_next self
  | Previous => button_previous self
  end.

(** The first command, in the order play, stop, next, previous, that is
    bound to [button]. *)
Definition bound_command (self : Py3status) (button : Z) : option command :=
  head (filter (λ c, binding self c = Some button) [PlayPause; Stop; Next; Previous]).

Definition controls : list string := ["play"; "stop"; "next"; "previous"].

(** A value [format] prints within the embedding. *)
Definition printable (v : pyval) : Prop :=
  match v with
  | PList _ => False
  | _ => True
  end.

Definition printable_locals (l : locals) : Prop :=
  printable (v_album l) ∧ printable (v_artist l) ∧ printable (v_title l).

(** The names [format] is given at line 260: the placeholders of the
    templates. *)
Definition placeholders : list string :=
  ["player"; "state"; "album"; "artist"; "length"; "time"; "title"].

(** A plain template: literal text, the escapes [{{] and [}}], and fields
    that are the bare name of a placeholder.  It is read as [str.format]
    reads it, and nothing of it is rendered. *)
Fixpoint plain_template (mode : fmode) (template : string) : bool :=
  match template with
  | EmptyString =>
      match mode with
      | Text => true
      | Closing | Field _ => false
      end
  | String c rest =>
      match mode with
      | Text =>
          if Ascii.eqb c "{" then plain_template (Field "") rest
          else if Ascii.eqb c "}" then plain_template Closing rest
          else plain_template Text rest
      | Closing => Ascii.eqb c "}" && plain_template Text rest
      | Field name =>
          if Ascii.eqb c "}" then
            bool_decide (name ∈ placeholders) && plain_template Text rest
          else if Ascii.eqb c "{" then
            bool_decide (name = "") && plain_template Text rest
          else negb (beyond_plain_field c)
               && plain_template (Field (name +:+ String c "")) rest
      end
  end.

(** Text whose characters [re.sub] counts within the embedding. *)
Definition ascii_text (v : pyval) : Prop := ∃ s, v = PStr s ∧ all_ascii s = true.

(** The template lines 253-258 select. *)
Definition chosen_template (self : Py3status) (l : locals) : string :=
  if v_is_stream l then format_stream self else format self.

(** Album, artist and title can be rendered: they print, and the title of
    a stream is text. *)
Definition readable (l : locals) : Prop :=
  printable (v_album l) ∧ printable (v_artist l)
  ∧ if v_is_stream l then ascii_text (v_title l) else printable (v_title l).

(** The variables once identity, state and position are read. *)
Definition queried_locals (identity color state time : string) : locals :=
  set_time time
    (set_state state (set_color color (set_identity identity initial_locals))).

(** The variables after lines 233-235: the url is tested, title and album
    are taken from the metadata. *)
Definition titled_locals (md : gmap string pyval) (b : bool) (l : locals) : locals :=
  set_album (get_or (md !! "xesam:album") (PStr UNKNOWN))
    (set_title (get_or (md !! "xesam:title") (PStr UNKNOWN)) (set_is_stream b l)).

(** [query_failure self cfg p l]: reading the identity, the state, the
    position or the metadata of [p] fails, or the url of the metadata
    cannot be tested, and [l] holds the variables as the failure leaves
    them -- those assigned before it, every other one at its initial
    value.  Nothing of the metadata is assigned. *)
Inductive query_failure (self : Py3status) (i3s_config : I3sConfig) (p : Player)
    : locals → Prop :=
  | identity_fails e :
      Identity p = Raise e →
      query_failure self i3s_config p initial_locals
  | state_fails identity e :
      Identity p = Ok identity →
      PlaybackStatus p = Raise e →
      query_failure self i3s_config p (set_identity identity initial_locals)
  | position_fails identity color state e :
      Identity p = Ok identity →
      _get_state_format self i3s_config p = Ok (color, state) →
      Position p = Raise e →
      query_failure self i3s_config p
        (set_state state (set_color color (set_identity identity initial_locals)))
  | position_malformed identity color state pos e :
      Identity p = Ok identity →
      _get_state_format self i3s_config p = Ok (color, state) →
      Position p = Ok pos →
      _get_time_str pos = Raise e →
      query_failure self i3s_config p
        (set_state state (set_color color (set_identity identity initial_locals)))
  | metadata_fails identity color state pos time e :
      Identity p = Ok identity →
      _get_state_format self i3s_config p = Ok (color, state) →
      Position p = Ok pos →
      _get_time_str pos = Ok time →
      Metadata p = Raise e →
      query_failure self i3s_config p
        (set_time time
           (set_state state (set_color color (set_identity identity initial_locals))))
  | url_malformed identity color state pos time md e :
      Identity p = Ok identity →
      _get_state_format self i3s_config p = Ok (color, state) →
      Position p = Ok pos →
      _get_time_str pos = Ok time →
      Metadata p = Ok md →
      (0 < size md)%nat →
      not_local_file (md !! "xesam:url") = Raise e →
      query_failure self i3s_config p
        (set_time time
           (set_state state (set_color color (set_identity identity initial_locals)))).

(** [metadata_failure self cfg p l]: the metadata of [p] is read and its
    url tested, and then the first artist (line 238) or the length (line
    242) cannot be taken; [l] holds the variables as the failure leaves
    them. *)
Inductive metadata_failure (self : Py3status) (i3s_config : I3sConfig) (p : Player)
    : locals → Prop :=
  | artist_malformed identity color state pos time md b a e :
      Identity p = Ok identity →
      _get_state_format self i3s_config p = Ok (color, state) →
      Position p = Ok pos →
      _get_time_str pos = Ok time →
      Metadata p = Ok md →
      (0 < size md)%nat →
      not_local_file (md !! "xesam:url") = Ok b →
      md !! "xesam:artist" = Some a →
      item0 a = Raise e →
      metadata_failure self i3s_config p
        (titled_locals md b (queried_locals identity color state time))
  | length_malformed identity color state pos time md b a a0 len e :
      Identity p = Ok identity →
      _get_state_format self i3s_config p = Ok (color, state) →
      Position p = Ok pos →
      _get_time_str pos = Ok time →
      Metadata p = Ok md →
      (0 < size md)%nat →
      not_local_file (md !! "xesam:url") = Ok b →
      md !! "xesam:artist" = Some a →
      item0 a = Ok a0 →
      md !! "mpris:length" = Some len →
      _get_time_str len = Raise e →
      metadata_failure self i3s_config p
        (set_artist a0 (titled_locals md b (queried_locals identity color state time)))
  | length_malformed_stream identity color state pos time md b len e :
      Identity p = Ok identity →
      _get_state_format self i3s_config p = Ok (color, state) →
      Position p = Ok pos →
      _get_time_str pos = Ok time →
      Metadata p = Ok md →
      (0 < size md)%nat →
      not_local_file (md !! "xesam:url") = Ok b →
      md !! "xesam:artist" = None →
      md !! "mpris:length" = Some len →
      _get_time_str len = Raise e →
      metadata_failure self i3s_config p
        (set_is_stream true
           (titled_locals md b (queried_locals identity color state time))).

Definition no_player_payload (self : Py3status) (i3s_config : I3sConfig)
    (cached : Z) : response :=
  {| cached_until := cached;
     composite := [{| full_text := format_none self;
                      color := color_bad i3s_config; index := "text" |}] |}.

(** The text for [{length}]: the rendered length, or the no-time text
    when the metadata has none. *)
Definition length_text (metadata : gmap string pyval) : outcome string :=
  match metadata !! "mpris:length" with
  | Some v => _get_time_str v
  | None => Ok UNKNOWN_TIME
  end.

(** The first entry of the artist field, if the metadata has the field. *)
Definition first_artist (metadata : gmap string pyval) : outcome (option pyval) :=
  match metadata !! "xesam:artist" with
  | Some v => a ← item0 v; mret (Some a)
  | None => mret None
  end.

(** The variables of [_get_text] when every query has answered: identity,
    state glyph and colour, time, and the metadata with its url [u] and
    first artist [artist]. *)
Definition answered_locals (identity state color time len : string)
    (metadata : gmap string pyval) (u : string) (artist : option pyval) : locals :=
  {| v_is_stream := negb (contains "file://" u) || bool_decide (artist = None);
     v_player := identity;
     v_state := state;
     v_artist := default (PStr UNKNOWN) artist;
     v_album := get_or (metadata !! "xesam:album") (PStr UNKNOWN);
     v_length := len;
     v_time := time;
     v_title := get_or (metadata !! "xesam:title") (PStr UNKNOWN);
     v_color := Some color |}.

(** A player of which only the status is of interest. *)
Definition status_only (status : outcome string) : Player :=
  {| Identity := bus_error; PlaybackStatus := status; Position := bus_error;
     Metadata := bus_error; invoke := λ _, Ok () |}.

(** A bus on which the only player is registered under the name [None]. *)
Definition player_named_None : Bus := bus_of [("None", player_with "Playing")].

(** Two players are listed and neither can be reached. *)
Definition all_vanished : Bus :=
  {| ListNames := Ok ["org.mpris.MediaPlayer2.vlc"; "org.mpris.MediaPlayer2.mpd"];
     get := λ _, bus_error |}.

(** A stream with a url, a title and nothing else. *)
Definition radio : gmap string pyval :=
  {[ "xesam:url" := PStr "http://radio.example/live.mp3";
     "xesam:title" := PStr "Evening news" ]}.

(** A stream whose title is nothing but an extension. *)
Definition only_extension : gmap string pyval :=
  {[ "xesam:url" := PStr "http://radio.example/live";
     "xesam:title" := PStr ".mp3" ]}.

(** A stream whose artist field is an empty array. *)
Definition no_first_artist : gmap string pyval :=
  {[ "xesam:url" := PStr "http://radio.example/live";
     "xesam:title" := PStr "Live.mp3";
     "xesam:artist" := PList [] ]}.

(** A song whose first artist is the empty text. *)
Definition empty_artist : gmap string pyval :=
  {[ "xesam:url" := PStr "file:///music/a.flac";
     "xesam:title" := PStr "Song";
     "xesam:artist" := PList [PStr ""] ]}.

(** * Properties *)

Local Ltac lia_div := Z.div_mod_to_equations; lia.

(** ** The embedding at work *)

Example time_45s : time_str_of_int 45000000 = Ok "0:45".
Proof. vm_compute. reflexivity. Qed.

Example time_3m45 : time_str_of_int 225000000 = Ok "3:45".
Proof. vm_compute. reflexivity. Qed.

Example time_1h : time_str_of_int 3600000000 = Ok "1:00:00".
Proof. vm_compute. reflexivity. Qed.

Example time_2d : time_str_of_int 180000000000 = Ok "2 days, 2:00:00".
Proof. vm_compute. reflexivity. Qed.

Example time_12m : time_str_of_int 754000000 = Ok "12:34".
Proof. vm_compute. reflexivity. Qed.

Example strip_ext1 : strip_extension "movie.mkv" = Ok "movie".
Proof. vm_compute. reflexivity. Qed.

Example split1 : split "," "mpd,vlc,*" = ["mpd"; "vlc"; "*"].
Proof. vm_compute. reflexivity. Qed.

Example text_playing :
  _get_text defaults i3s (player_with "Playing") = Ok ("▶ Band - Song", "#00FF00").
Proof. vm_compute. reflexivity. Qed.

(** ** Decimal printing *)

Lemma pretty_N_go_head (x : N) (s : string) :
  (0 < x)%N → ∃ c r, pretty_N_go x s = String c r ∧ c ≠ "0"%char.
Proof.
  revert s. induction (N.lt_wf_0 x) as [x _ IH]; intros s Hx.
  rewrite pretty_N_go_step by done.
  destruct (decide (x `div` 10 = 0)%N) as [Hq|Hq].
  - rewrite Hq, pretty_N_go_0. eexists _, _; split; [done|].
    assert (x < 10)%N by (apply N.div_small_iff in Hq; lia).
    rewrite N.mod_small by done.
    assert (x = 1 ∨ x = 2 ∨ x = 3 ∨ x = 4 ∨ x = 5 ∨ x = 6
            ∨ x = 7 ∨ x = 8 ∨ x = 9)%N as Hcases by lia.
    repeat destruct Hcases as [->|Hcases]; try subst x; discriminate.
  - apply IH; [apply N.div_lt; lia | by apply N.neq_0_lt_0].
Qed.

Lemma pretty_Z_head (z : Z) :
  0 < z → ∃ c r, pretty z = String c r ∧ c ≠ "0"%char.
Proof.
  destruct z as [|p|p]; [lia| |lia]; intros _.
  unfold pretty, pretty_Z, pretty, pretty_positive, pretty, pretty_N.
  case_decide; [lia|]. apply pretty_N_go_head. lia.
Qed.

Lemma strip_leading_nonzero (c : ascii) (r : string) :
  c ≠ "0"%char → strip_leading_zeros (String c r) = Ok (String c r).
Proof.
  intros Hc. unfold strip_leading_zeros; simpl.
  destruct (Ascii.eqb_spec c "0"); [done|reflexivity].
Qed.

Lemma strip_leading_pretty (z : Z) (r : string) :
  0 < z → strip_leading_zeros (pretty z +:+ r) = Ok (pretty z +:+ r).
Proof.
  intros Hz. destruct (pretty_Z_head z Hz) as (c & t & -> & Hc).
  by apply strip_leading_nonzero.
Qed.

Lemma strip_leading_minutes (mm : Z) (r : string) :
  0 ≤ mm →
  strip_leading_zeros ("0:" +:+ pad2 mm +:+ r) = Ok (pretty mm +:+ r).
Proof.
  intros Hmm. unfold pad2. destruct (Z.ltb_spec mm 10) as [Hlt|Hge].
  - reflexivity.
  - destruct (pretty_Z_head mm ltac:(lia)) as (c & t & -> & Hc).
    unfold strip_leading_zeros; simpl.
    destruct (Ascii.eqb_spec c "0"); [done|reflexivity].
Qed.

(** C6.  For a microsecond count [us] with [0 ≤ us < 2^53], [s] being its
    whole seconds: below one hour the hour component ["0:"] and one leading
    zero of the minutes are dropped, leaving the minutes unpadded and the
    seconds on two digits; from one hour on the text [H:MM:SS] of
    [timedelta] is kept as it is, behind the day count from one day on. *)
Theorem C6_time_rendering (us : Z) :
  0 ≤ us < 2 ^ 53 →
  let s := us `div` 1000000 in
  _get_time_str (PInt us) =
    Ok (if s <? 3600 then pretty (s `div` 60) +:+ ":" +:+ pad2 (s `mod` 60)
        else if s <? 86400 then hms s
        else pretty (s `div` 86400) +:+ " day"
             +:+ (if s `div` 86400 =? 1 then "" else "s") +:+ ", "
             +:+ hms (s `mod` 86400)).
Proof.
  intros Hus s. unfold _get_time_str, time_str_of_int, seconds_of_micro.
  change (2 ^ 53) with 9007199254740992 in *.
  rewrite Z.abs_eq by lia.
  destruct (Z.ltb_spec us 9007199254740992) as [_|?]; [|lia].
  simpl mbind. rewrite Z.quot_div_nonneg by lia. fold s.
  assert (0 ≤ s < 9007199255) as Hs by (subst s; lia_div).
  unfold timedelta_str. fold (hms (s `mod` 86400)).
  rewrite (Z.abs_eq (s `div` 86400)) by lia_div.
  destruct (Z.ltb_spec 999999999 (s `div` 86400)) as [?|_]; [lia_div|].
  simpl mbind.
  destruct (Z.ltb_spec s 3600) as [H1|H1].
  - rewrite Z.div_small, Z.mod_small by lia. simpl (0 =? 0).
    unfold hms. rewrite (Z.div_small s 3600), (Z.mod_small (s `div` 60) 60) by lia_div.
    apply (strip_leading_minutes (s `div` 60)). lia_div.
  - destruct (Z.ltb_spec s 86400) as [H2|H2].
    + rewrite Z.div_small, Z.mod_small by lia. simpl (0 =? 0).
      unfold hms. apply strip_leading_pretty. lia_div.
    + destruct (Z.eqb_spec (s `div` 86400) 0) as [?|_]; [lia_div|].
      apply strip_leading_pretty. lia_div.
Qed.

(** The three durations named by C6. *)
Lemma C6_time_rendering_witness :
  _get_time_str (PInt 45000000) = Ok "0:45"
  ∧ _get_time_str (PInt 225000000) = Ok "3:45"
  ∧ _get_time_str (PInt 3600000000) = Ok "1:00:00".
Proof.
  split; [|split].
  - exact (C6_time_rendering 45000000 ltac:(lia)).
  - exact (C6_time_rendering 225000000 ltac:(lia)).
  - exact (C6_time_rendering 3600000000 ltac:(lia)).
Defined.

(** ** Candidate order *)

Lemma remove_first_sublist (x : string) (l : list string) :
  sublist (remove_first x l) l.
Proof.
  induction l as [|y l IH]; simpl; [done|].
  case_bool_decide; [by apply sublist_cons | by apply sublist_skip].
Qed.

Lemma remove_first_perm (x : string) (l : list string) :
  x ∈ l → l ≡ₚ x :: remove_first x l.
Proof.
  induction l as [|y l IH]; simpl; [by intros ?%elem_of_nil|].
  intros Hx. case_bool_decide as Hxy; [by subst|].
  apply elem_of_cons in Hx as [?|Hx]; [done|].
  rewrite (IH Hx) at 1. apply Permutation_swap.
Qed.

Lemma remove_first_other (x y : string) (l : list string) :
  x ≠ y → x ∈ l → x ∈ remove_first y l.
Proof.
  intros Hxy. induction l as [|z l IH]; simpl; [done|].
  intros Hx. case_bool_decide; subst.
  - apply elem_of_cons in Hx as [?|?]; [congruence|done].
  - apply elem_of_cons in Hx as [->|?]; [left|right; auto].
Qed.

(** What the loop of lines 187-190 computes: the names it moves ([named])
    and the pool it leaves ([rest]). *)
Lemma prioritize_spec (player_priority players acc : list string) :
  ∃ named rest,
    prioritize player_priority players acc = (rest, acc ++ named)
    ∧ sublist named player_priority
    ∧ sublist rest players
    ∧ players ≡ₚ named ++ rest
    ∧ (∀ x, x ∈ named ↔ x ∈ player_priority ∧ x ∈ players).
Proof.
  revert players acc.
  induction player_priority as [|name pl IH]; intros players acc; simpl.
  { exists [], players. rewrite app_nil_r. split_and!; try done.
    intros x; split; [by intros ?%elem_of_nil | by intros [?%elem_of_nil _]]. }
  case_bool_decide as Hin.
  - destruct (IH (remove_first name players) (acc ++ [name]))
      as (named & rest & Heq & Hn & Hr & Hp & Hm).
    exists (name :: named), rest. rewrite Heq, <-app_assoc. simpl.
    split_and!; [done| |..].
    + by apply sublist_skip.
    + etrans; [done|apply remove_first_sublist].
    + rewrite (remove_first_perm name players Hin) at 1. by rewrite Hp.
    + intros x; split.
      * intros [->|Hx%Hm]%elem_of_cons.
        -- split; [left|done].
        -- destruct Hx as [? Hx]. split; [by right|].
           by apply (elem_of_sublist _ _ _ Hx), remove_first_sublist.
      * intros [Hx Hxp]. apply elem_of_cons.
        destruct (decide (x = name)) as [|Hne]; [by left|].
        right. apply Hm. apply elem_of_cons in Hx as [?|?]; [done|].
        split; [done|by apply remove_first_other].
  - destruct (IH players acc) as (named & rest & Heq & Hn & Hr & Hp & Hm).
    exists named, rest. rewrite Heq. split_and!; try done.
    + by apply sublist_cons.
    + intros x; split.
      * intros Hx%Hm. destruct Hx. split; [by right|done].
      * intros [[->|?]%elem_of_cons ?]; [done|]. by apply Hm.
Qed.

(** C2, as the code has it.  With a priority list configured, the candidate
    order is the names of the list that are running ([named]: a selection of
    the list in list order, each taken out of the pool as it is appended),
    followed, if the list contains [*] anywhere, by the names left in the
    pool after the whole list was read ([rest], in enumeration order). *)
Theorem C2_candidate_order (p : string) (players : list string) :
  ∃ named rest,
    prioritize (split "," p) players [] = (rest, named)
    ∧ candidate_order (Some p) players
      = named ++ (if bool_decide ("*" ∈ split "," p) then rest else [])
    ∧ (∀ x, x ∈ named ↔ x ∈ split "," p ∧ x ∈ players)
    ∧ sublist named (split "," p)
    ∧ sublist rest players
    ∧ players ≡ₚ named ++ rest.
Proof.
  destruct (prioritize_spec (split "," p) players [])
    as (named & rest & Heq & Hn & Hr & Hp & Hm).
  exists named, rest. simpl in Heq. unfold candidate_order. rewrite Heq.
  split_and!; try done.
  case_bool_decide; [done|by rewrite app_nil_r].
Qed.

(** C2 as stated fails: with the wildcard first, the code still puts the
    listed player before the others. *)
Lemma C2_wildcard_position_counterexample :
  candidate_order (Some "*,vlc") ["mpd"; "vlc"] = ["vlc"; "mpd"]
  ∧ candidate_order_spec (split "," "*,vlc") ["mpd"; "vlc"] = ["mpd"; "vlc"]
  ∧ candidate_order (Some "*,vlc") ["mpd"; "vlc"]
    ≠ candidate_order_spec (split "," "*,vlc") ["mpd"; "vlc"].
Proof. vm_compute. repeat split; discriminate. Qed.

(** ** Where the code and the wording of C2 agree *)

Lemma prioritize_app (a b players acc : list string) :
  prioritize (a ++ b) players acc
  = prioritize b (prioritize a players acc).1 (prioritize a players acc).2.
Proof.
  revert players acc. induction a as [|name a IH]; intros players acc; simpl.
  - done.
  - case_bool_decide; apply IH.
Qed.

Lemma candidate_order_spec_prioritize (pl pool acc : list string) :
  "*" ∉ pl →
  (prioritize pl pool acc).2 = acc ++ candidate_order_spec pl pool
  ∧ candidate_order_spec (pl ++ ["*"]) pool
    = candidate_order_spec pl pool ++ (prioritize pl pool acc).1.
Proof.
  revert pool acc. induction pl as [|name pl IH]; intros pool acc Hstar; simpl.
  - by rewrite !app_nil_r.
  - apply not_elem_of_cons in Hstar as [Hne Hstar].
    rewrite (bool_decide_false (name = "*")) by done.
    case_bool_decide.
    + destruct (IH (remove_first name pool) (acc ++ [name]) Hstar) as [-> ->].
      by rewrite <-app_assoc.
    + by destruct (IH pool acc Hstar) as [-> ->].
Qed.

(** Without a wildcard in the list, the code builds the order C2 words. *)
Lemma candidate_order_wildcard_absent (p : string) (players : list string) :
  "*" ∉ split "," p →
  candidate_order (Some p) players = candidate_order_spec (split "," p) players.
Proof.
  intros Hstar. unfold candidate_order.
  destruct (candidate_order_spec_prioritize (split "," p) players [] Hstar)
    as [Hnamed _].
  destruct (prioritize _ _ _) as [rest named]. simpl in Hnamed.
  by rewrite bool_decide_false.
Qed.

(** With the wildcard as the last entry, and no player called [*], too. *)
Lemma candidate_order_wildcard_last (p : string) (pl players : list string) :
  split "," p = pl ++ ["*"] →
  "*" ∉ pl →
  "*" ∉ players →
  candidate_order (Some p) players = candidate_order_spec (split "," p) players.
Proof.
  intros Hsplit Hstar Hplayers. unfold candidate_order. rewrite Hsplit.
  destruct (candidate_order_spec_prioritize pl players [] Hstar)
    as [Hnamed ->].
  rewrite prioritize_app.
  destruct (prioritize_spec pl players []) as (named & rest & Heq & _ & Hrest & _).
  rewrite Heq in Hnamed |- *. simpl in Hnamed |- *.
  rewrite bool_decide_false.
  - rewrite bool_decide_true; [by rewrite <-Hnamed|].
    apply elem_of_app. right. by left.
  - intros Hin. apply Hplayers. by apply (elem_of_sublist _ _ _ Hin).
Qed.

(** ** Selection *)

Lemma scan_unfold (bus : Bus) (c : string) (rest pa st : list string) :
  scan bus (c :: rest) pa st =
    match _get_state bus c with
    | Ok s =>
        match classify s with
        | Playing => Ok c
        | Paused => scan bus rest (pa ++ [c]) st
        | Stopped => scan bus rest pa (st ++ [c])
        end
    | Raise e => Raise e
    | Unmodelled => Unmodelled
    end.
Proof.
  simpl. destruct (_get_state bus c) as [s| |]; simpl; [|done..].
  unfold classify. by repeat case_bool_decide.
Qed.

Lemma found_classify (bus : Bus) (c : string) (s : string) (b : bucket) :
  _get_state bus c = Ok s → found bus b c = bool_decide (classify s = b).
Proof. unfold found. by intros ->. Qed.

(** The scan with its two memories, when every candidate answers. *)
Lemma scan_spec (bus : Bus) (cands pa st : list string) :
  Forall (λ c, returns (_get_state bus c)) cands →
  scan bus cands pa st =
    Ok (match head (filter (found bus Playing) cands) with
        | Some c => c
        | None =>
            match head (pa ++ filter (found bus Paused) cands) with
            | Some c => c
            | None =>
                match head (st ++ filter (found bus Stopped) cands) with
                | Some c => c
                | None => "None"
                end
            end
        end).
Proof.
  intros Hall. revert pa st.
  induction Hall as [|c rest [s Hs] _ IH]; intros pa st.
  { simpl. rewrite !app_nil_r. by destruct pa, st. }
  rewrite scan_unfold, Hs.
  rewrite !filter_cons, !(found_classify bus c s) by done.
  destruct (classify s) eqn:Hc; simpl.
  - done.
  - rewrite IH. by rewrite <-!app_assoc.
  - rewrite IH. by rewrite <-!app_assoc.
Qed.

(** The first candidate playing ends the scan: what comes after it is
    not asked. *)
Lemma scan_first_playing (bus : Bus) (pre post pa st : list string) (c : string) :
  Forall (λ x, ∃ s, _get_state bus x = Ok s ∧ classify s ≠ Playing) pre →
  _get_state bus c = Ok "Playing" →
  scan bus (pre ++ c :: post) pa st = Ok c.
Proof.
  intros Hpre Hc. revert pa st.
  induction Hpre as [|x pre (s & Hs & Hne) _ IH]; intros pa st; simpl app.
  - by rewrite scan_unfold, Hc.
  - rewrite scan_unfold, Hs. destruct (classify s); [done|apply IH..].
Qed.

(** C1.  Let the bus enumeration succeed and [cands] be the candidate
    order.  A candidate that is Playing, behind candidates that all answer
    with another state, is selected, whatever follows it.  And when every
    candidate answers, the selection is the first candidate Playing, else
    the first Paused, else the first in any other state, else ['None']. *)
Theorem C1_selection (self : Py3status) (bus : Bus) (names : list string) :
  ListNames bus = Ok names →
  let cands := candidate_order (player_priority self) (running_players names) in
  (∀ pre c post,
      cands = pre ++ c :: post →
      Forall (λ x, ∃ s, _get_state bus x = Ok s ∧ classify s ≠ Playing) pre →
      _get_state bus c = Ok "Playing" →
      _detect_running_player self bus = Ok c)
  ∧ (Forall (λ c, returns (_get_state bus c)) cands →
     _detect_running_player self bus = Ok (selection_spec bus cands)).
Proof.
  intros Hnames cands. unfold _detect_running_player. rewrite Hnames.
  simpl mbind. fold cands. split.
  - intros pre c post -> Hpre Hc. by apply scan_first_playing.
  - intros Hall. by rewrite scan_spec.
Qed.

(** Priority ["mpd,vlc"], mpd paused, vlc playing: vlc is selected. *)
Lemma C1_selection_witness :
  _detect_running_player (with_priority "mpd,vlc") mpd_paused_vlc_playing = Ok "vlc"
  ∧ _detect_running_player (with_priority "mpd,vlc") mpd_paused_vlc_playing
    = Ok (selection_spec mpd_paused_vlc_playing ["mpd"; "vlc"]).
Proof.
  pose proof (C1_selection (with_priority "mpd,vlc") mpd_paused_vlc_playing
                _ eq_refl) as [Hfirst Hall].
  split.
  - apply (Hfirst ["mpd"] "vlc" []); [reflexivity| |reflexivity].
    repeat constructor. exists "Paused". split; [reflexivity|discriminate].
  - apply Hall. repeat constructor; eexists; reflexivity.
Defined.

(** ** No candidate, no player *)

Lemma prioritize_none_running (player_priority players acc : list string) :
  (∀ n, n ∈ player_priority → n ∉ players) →
  prioritize player_priority players acc = (players, acc).
Proof.
  revert acc. induction player_priority as [|name pl IH]; intros acc Hno; simpl.
  - done.
  - case_bool_decide as Hin.
    + exfalso. by apply (Hno name); [left|].
    + apply IH. intros n Hn. apply Hno. by right.
Qed.

Lemma candidate_order_excluded (p : string) (players : list string) :
  "*" ∉ split "," p →
  (∀ n, n ∈ split "," p → n ∉ players) →
  candidate_order (Some p) players = [].
Proof.
  intros Hstar Hno. unfold candidate_order.
  rewrite (prioritize_none_running _ _ [] Hno).
  by case_bool_decide.
Qed.

Lemma candidate_order_nil (priority : option string) :
  candidate_order priority [] = [].
Proof.
  destruct priority as [p|]; [|done]. unfold candidate_order.
  rewrite (prioritize_none_running _ [] []).
  - by case_bool_decide.
  - intros n _. apply not_elem_of_nil.
Qed.

(** C8.  When the enumeration answers and either no player is running, or
    the priority list has no [*] and none of its names is running, the
    selection is ['None'], whatever the players not listed are doing. *)
Theorem C8_no_player (self : Py3status) (bus : Bus) (names : list string) :
  ListNames bus = Ok names →
  running_players names = []
  ∨ (∃ p, player_priority self = Some p
          ∧ ("*" ∉ split "," p)
          ∧ (∀ n, n ∈ split "," p → n ∉ running_players names)) →
  _detect_running_player self bus = Ok "None".
Proof.
  intros Hnames Hcase. unfold _detect_running_player. rewrite Hnames.
  simpl mbind.
  destruct Hcase as [->|(p & -> & Hstar & Hno)].
  - by rewrite candidate_order_nil.
  - by rewrite candidate_order_excluded.
Qed.

(** Priority ["vlc"], only mpd running and playing: no player. *)
Lemma C8_no_player_witness :
  running_players ["org.freedesktop.DBus"; "org.mpris.MediaPlayer2.mpd"] = ["mpd"]
  ∧ _get_state only_mpd_playing "mpd" = Ok "Playing"
  ∧ _detect_running_player (with_priority "vlc") only_mpd_playing = Ok "None".
Proof.
  split; [reflexivity|]. split; [reflexivity|].
  apply (C8_no_player (with_priority "vlc") only_mpd_playing _ eq_refl).
  right. exists "vlc". split; [reflexivity|].
  change (split "," "vlc") with ["vlc"].
  change (running_players _) with ["mpd"].
  split.
  - intros Hin. apply list_elem_of_singleton in Hin. discriminate.
  - intros n Hn Hrun.
    apply list_elem_of_singleton in Hn, Hrun. congruence.
Defined.

(** ** Candidates that do not answer *)

(** A player that cannot be reached is found stopped. *)
Lemma unreachable_found_stopped (bus : Bus) (c : string) (e : exn) :
  get bus (SERVICE_BUS +:+ "." +:+ c) = Raise e →
  _get_state bus c = Ok "None" ∧ found bus Stopped c = true.
Proof.
  intros Hget. unfold found, _get_state, _get_player. by rewrite Hget.
Qed.

(** A player that is reached and then fails to tell its status ends the
    scan with that failure. *)
Lemma status_failure_propagates (bus : Bus) (c : string) (p : Player) (e : exn)
    (rest pa st : list string) :
  get bus (SERVICE_BUS +:+ "." +:+ c) = Ok p →
  PlaybackStatus p = Raise e →
  scan bus (c :: rest) pa st = Raise e.
Proof.
  intros Hget Hst. rewrite scan_unfold. unfold _get_state, _get_player.
  by rewrite Hget; simpl; rewrite Hst.
Qed.

(** C7 on the code.  When the lookup of vlc fails the scan goes on and
    finds mpd; when the lookup succeeds and the status read fails, the
    state query, the detection and the refresh all end with the bus
    error. *)
Lemma C7_status_read_failure_aborts :
  _detect_running_player defaults vlc_unreachable = Ok "mpd"
  ∧ _get_state vlc_vanishing "vlc" = Raise GError
  ∧ _detect_running_player defaults vlc_vanishing = Raise GError
  ∧ (mpris_body defaults i3s 0 (Ok vlc_vanishing)).2 = Raise GError.
Proof. vm_compute. done. Qed.

(** ** Click dispatch *)

(** C9.  With a player selected: a click on the glyph of a command sends
    that command once if the mouse button is 1 and nothing otherwise; a
    click on the text sends the command bound to the mouse button, if there
    is one, and nothing otherwise; a command sent from the text is bound to
    the mouse button of the click, so a command without binding is never
    sent. *)
Theorem C9_click_dispatch (self : Py3status) (p : Player) (ev : click_event) :
  _player self = Some (Some p) →
  (∀ c, ev_index ev = glyph_index c →
        (on_click self ev).1 = if bool_decide (ev_button ev = 1) then [c] else [])
  ∧ (ev_index ev = "text" →
     (on_click self ev).1
       = match bound_command self (ev_button ev) with
         | Some c => [c]
         | None => []
         end
     ∧ (∀ c, c ∈ (on_click self ev).1 → binding self c = Some (ev_button ev))
     ∧ (∀ c, binding self c = None → c ∉ (on_click self ev).1)).
Proof.
  intros Hp. unfold on_click, call_player. rewrite Hp. split.
  - intros c Hc. rewrite Hc.
    destruct c; simpl; by case_bool_decide.
  - intros Ht. rewrite Ht. simpl.
    assert ((if bool_decide (button_play self = Some (ev_button ev))
             then ([PlayPause], invoke p PlayPause)
             else if bool_decide (button_stop self = Some (ev_button ev))
             then ([Stop], invoke p Stop)
             else if bool_decide (button_next self = Some (ev_button ev))
             then ([Next], invoke p Next)
             else if bool_decide (button_previous self = Some (ev_button ev))
             then ([Previous], invoke p Previous)
             else ([], Ok ())).1
            = match bound_command self (ev_button ev) with
              | Some c => [c]
              | None => []
              end) as Heq.
    { unfold bound_command. rewrite !filter_cons, filter_nil. simpl.
      repeat case_bool_decide; repeat case_decide; done. }
    rewrite Heq. split; [done|].
    assert (∀ c, c ∈ match bound_command self (ev_button ev) with
                     | Some c => [c]
                     | None => []
                     end → binding self c = Some (ev_button ev)) as Hbound.
    { intros c. unfold bound_command.
      destruct (head _) as [c'|] eqn:Hhead; [|by intros ?%elem_of_nil].
      intros ->%list_elem_of_singleton.
      apply head_Some_elem_of in Hhead.
      by apply list_elem_of_filter in Hhead as [? _]. }
    split; [done|].
    intros c Hnone Hin. apply Hbound in Hin. congruence.
Qed.

(** The glyph "next" with mouse button 1 and with mouse button 2, and the
    text with mouse button 4 (bound to "next" by default). *)
Lemma C9_click_dispatch_witness :
  (on_click vlc_selected {| ev_index := "next"; ev_button := 1 |}).1 = [Next]
  ∧ (on_click vlc_selected {| ev_index := "next"; ev_button := 2 |}).1 = []
  ∧ (on_click vlc_selected {| ev_index := "text"; ev_button := 4 |}).1 = [Next].
Proof.
  split; [|split].
  - exact (proj1 (C9_click_dispatch vlc_selected _
             {| ev_index := "next"; ev_button := 1 |} eq_refl) Next eq_refl).
  - exact (proj1 (C9_click_dispatch vlc_selected _
             {| ev_index := "next"; ev_button := 2 |} eq_refl) Next eq_refl).
  - exact (proj1 (proj2 (C9_click_dispatch vlc_selected _
             {| ev_index := "text"; ev_button := 4 |} eq_refl) eq_refl)).
Defined.

(** ** The composite of a refresh *)

Lemma buttons_loop_controls (self : Py3status) (state : string) (order : list string) :
  Forall (λ e, index e ∈ controls) (buttons_loop self state order).
Proof.
  assert (∀ g n, n ∈ controls → index (button_entry g n) ∈ controls) as Hentry by done.
  induction order as [|b order IH]; simpl; [constructor|].
  repeat case_bool_decide; try done; constructor; try done; apply Hentry;
    unfold controls; repeat ((by left) || right).
Qed.

Lemma buttons_loop_recognized (self : Py3status) (state : string) (order : list string) :
  buttons_loop self state order ≠ [] → ∃ b, b ∈ order ∧ b ∈ controls.
Proof.
  induction order as [|b order IH]; simpl; [done|].
  intros Hne.
  destruct (decide (b ∈ controls)) as [Hb|Hb].
  - exists b. split; [left|done].
  - assert (buttons_loop self state order ≠ []) as Hrest.
    { repeat case_bool_decide; subst; try done;
        exfalso; apply Hb; unfold controls; repeat ((by left) || right). }
    destruct (IH Hrest) as (b' & ? & ?). exists b'. split; [by right|done].
Qed.

Lemma buttons_loop_set_player (self : Py3status) (p : option Player)
    (state : string) (order : list string) :
  buttons_loop (set_player self p) state order = buttons_loop self state order.
Proof.
  induction order as [|b order IH]; simpl; [done|].
  by rewrite IH.
Qed.

Lemma control_not_text (e : entry) : index e ∈ controls → index e ≠ "text".
Proof.
  intros Hin Heq. rewrite Heq in Hin. unfold controls in Hin.
  repeat (apply elem_of_cons in Hin as [?|Hin]; [discriminate|]).
  by apply elem_of_nil in Hin.
Qed.

Lemma text_entry_once (t : entry) (bs : list entry) :
  index t = "text" →
  Forall (λ e, index e ∈ controls) bs →
  length (filter (λ e, index e = "text") (bs ++ [t])) = 1%nat
  ∧ length (filter (λ e, index e = "text") ([t] ++ bs)) = 1%nat.
Proof.
  intros Ht Hbs.
  assert (filter (λ e, index e = "text") bs = []) as Hnone.
  { induction Hbs as [|b bs Hb _ IH]; [done|].
    rewrite filter_cons_False; [done|]. by apply control_not_text. }
  rewrite !filter_app, Hnone, filter_cons_True, filter_nil by done. done.
Qed.

(** C10.  A payload returned by the refresh body is the text entry [t]
    (index ["text"], the only one with that index) with control entries
    [bs] before it or after it.  Control entries are present only when a
    player is selected and a configured button name is recognized; they
    stand before the text only for side ["left"] and after it only for side
    ["right"]; and with a player selected and one of these two sides, [bs]
    is all the buttons there are. *)
Theorem C10_composite (self : Py3status) (i3s_config : I3sConfig) (cached : Z)
    (session : outcome Bus) (self' : Py3status) (r : response) :
  mpris_body self i3s_config cached session = (self', Ok r) →
  ∃ t bs,
    index t = "text"
    ∧ Forall (λ e, index e ∈ controls) bs
    ∧ length (filter (λ e, index e = "text") (composite r)) = 1%nat
    ∧ (composite r = bs ++ [t] ∧ (bs ≠ [] → buttons_control self = Some "left")
       ∨ composite r = [t] ++ bs ∧ (bs ≠ [] → buttons_control self = Some "right"))
    ∧ (bs ≠ [] →
       (∃ p, _player self' = Some (Some p))
       ∧ (∃ b, b ∈ split "," (buttons_order self) ∧ b ∈ controls))
    ∧ (∀ p, _player self' = Some (Some p) →
            buttons_control self = Some "left"
            ∨ buttons_control self = Some "right" →
            _get_response_buttons self p = Ok bs).
Proof.
  unfold mpris_body.
  destruct (session ≫= _) as [p| |]; [|done..].
  intros [= <- Hr].
  assert (∃ text col bso side,
            compose cached side text col bso = Ok r
            ∧ (∀ bs, bso = Some bs → bs ≠ [] → side = buttons_control self)
            ∧ (∀ bs, bso = Some bs → bs = [] → side = None)
            ∧ (bso = None → side = None)
            ∧ (∀ bs, bso = Some bs →
                 Forall (λ e, index e ∈ controls) bs
                 ∧ (bs ≠ [] →
                    (∃ q, p = Some q)
                    ∧ (∃ b, b ∈ split "," (buttons_order self) ∧ b ∈ controls)))
            ∧ (∀ q, p = Some q →
                 ∃ bs, bso = Some bs ∧ _get_response_buttons self q = Ok bs))
    as (text & col & bso & side & Hcompose & Hside & Hnoside & Hunbound
        & Hbs & Hall).
  { destruct p as [player|]; unfold text_and_buttons in Hr.
    - destruct (_get_text _ _ _) as [[text col]| |]; [|done..].
      unfold _get_response_buttons in Hr.
      destruct (PlaybackStatus player) as [status| |] eqn:Hstatus; [|done..].
      cbn [mbind outcome_bind mret outcome_ret] in Hr.
      remember (buttons_loop _ _ _) as bs0 eqn:Hbs0 in Hr.
      change (buttons_control (set_player self (Some player)))
        with (buttons_control self) in Hr.
      eexists _, _, _, _. split; [exact Hr|]. split_and!.
      + intros bs [= <-] Hne. by rewrite bool_decide_false.
      + intros bs [= <-] ->. by rewrite bool_decide_true.
      + done.
      + intros bs [= <-]. rewrite Hbs0. split; [apply buttons_loop_controls|].
        intros Hne. split; [by eexists|].
        by apply (buttons_loop_recognized _ _ _ Hne).
      + intros q [= <-]. exists bs0. split; [done|].
        unfold _get_response_buttons. rewrite Hstatus, Hbs0.
        by rewrite buttons_loop_set_player.
    - cbn [mbind outcome_bind mret outcome_ret] in Hr.
      eexists _, _, _, _. split; [exact Hr|]. by split_and!. }
  set (t := {| full_text := text; color := col; index := "text" |}).
  assert (index t = "text") as Hidx by done.
  destruct (text_entry_once t [] Hidx ltac:(constructor)) as [Halone _].
  unfold compose in Hcompose. fold t in Hcompose.
  destruct bso as [bs|].
  - destruct (Hbs bs eq_refl) as [Hctl Hrec].
    destruct (text_entry_once t bs Hidx Hctl) as [Hleft Hright].
    assert (∀ q, _player (set_player self p) = Some (Some q) →
                 _get_response_buttons self q = Ok bs) as Hfull.
    { intros q [= ->]. by destruct (Hall q eq_refl) as (bs' & [= <-] & ?). }
    destruct (decide (bs = [])) as [->|Hne].
    + rewrite (Hnoside [] eq_refl eq_refl) in Hcompose.
      simpl in Hcompose. injection Hcompose as <-.
      exists t, []. simpl. split_and!; try done; [by left|].
      intros q Hq _. by apply Hfull.
    + rewrite (Hside bs eq_refl Hne) in Hcompose.
      repeat case_bool_decide; simpl in Hcompose; injection Hcompose as <-; simpl.
      * exists t, bs. split_and!; try done; [by left| |].
        -- intros _. destruct (Hrec Hne) as [[q ->] ?]. split; [by eexists|done].
        -- intros q Hq _. by apply Hfull.
      * exists t, bs. split_and!; try done; [by right| |].
        -- intros _. destruct (Hrec Hne) as [[q ->] ?]. split; [by eexists|done].
        -- intros q Hq _. by apply Hfull.
      * exists t, []. split_and!; try done; [by left|].
        by intros q _ [?|?].
  - rewrite (Hunbound eq_refl) in Hcompose.
    simpl in Hcompose. injection Hcompose as <-.
    exists t, []. simpl. split_and!; try done; [by left|].
    intros q [= ->]. by destruct (Hall q eq_refl) as (bs' & ? & ?).
Qed.

(** Side ["left"], vlc playing: three buttons, then the text. *)
Lemma C10_composite_witness :
  (mpris_body (with_side "left") i3s 105 (Ok mpd_paused_vlc_playing)).2 = Ok left_payload
  ∧ ∃ t bs,
      index t = "text"
      ∧ Forall (λ e, index e ∈ controls) bs
      ∧ length (filter (λ e, index e = "text") (composite left_payload)) = 1%nat
      ∧ (composite left_payload = bs ++ [t]
           ∧ (bs ≠ [] → buttons_control (with_side "left") = Some "left")
         ∨ composite left_payload = [t] ++ bs
           ∧ (bs ≠ [] → buttons_control (with_side "left") = Some "right"))
      ∧ (bs ≠ [] →
         (∃ p, _player (set_player (with_side "left") (Some (player_with "Playing")))
               = Some (Some p))
         ∧ (∃ b, b ∈ split "," (buttons_order (with_side "left")) ∧ b ∈ controls))
      ∧ (∀ p, _player (set_player (with_side "left") (Some (player_with "Playing")))
              = Some (Some p) →
              buttons_control (with_side "left") = Some "left"
              ∨ buttons_control (with_side "left") = Some "right" →
              _get_response_buttons (with_side "left") p = Ok bs).
Proof.
  split; [reflexivity|].
  exact (C10_composite (with_side "left") i3s 105 (Ok mpd_paused_vlc_playing)
           _ left_payload eq_refl).
Defined.

(** ** Templates *)

Lemma format_field_placeholder (l : locals) (name : string) :
  printable_locals l →
  name ∈ placeholders →
  returns (format_field (keywords l) name).
Proof.
  intros (Halbum & Hartist & Htitle) Hname.
  unfold placeholders in Hname.
  repeat (apply elem_of_cons in Hname as [->|Hname]);
    [..|by apply elem_of_nil in Hname]; unfold format_field; simpl.
  - by eexists.
  - by eexists.
  - revert Halbum. destruct (v_album l); [by eexists..|done].
  - revert Hartist. destruct (v_artist l); [by eexists..|done].
  - by eexists.
  - by eexists.
  - revert Htitle. destruct (v_title l); [by eexists..|done].
Qed.

(** A plain template renders on all printable values: every name it uses
    is among the keywords. *)
Lemma str_format_plain (l : locals) (mode : fmode) (template : string) :
  printable_locals l →
  plain_template mode template = true →
  returns (str_format (keywords l) mode template).
Proof.
  intros Hl. revert mode.
  induction template as [|c rest IH]; intros mode; simpl.
  { destruct mode; [by eexists|done..]. }
  destruct mode as [| |name].
  - destruct (Ascii.eqb c "{"); [apply IH|].
    destruct (Ascii.eqb c "}"); [apply IH|].
    intros [out ->]%IH. by eexists.
  - destruct (Ascii.eqb c "}"); [|done]. simpl.
    intros [out ->]%IH. by eexists.
  - destruct (Ascii.eqb c "}").
    + intros [Hname%bool_decide_eq_true [out ->]%IH]%andb_true_iff.
      destruct (format_field_placeholder l name Hl Hname) as [f ->].
      by eexists.
    + destruct (Ascii.eqb c "{").
      * intros [->%bool_decide_eq_true [out ->]%IH]%andb_true_iff.
        rewrite bool_decide_eq_true_2 by done. by eexists.
      * destruct (beyond_plain_field c); [done|apply IH].
Qed.

Lemma all_ascii_drop (k : nat) (s : string) :
  all_ascii s = true → all_ascii (string_drop k s) = true.
Proof.
  revert s. induction k as [|k IH]; intros [|c s]; simpl; try done.
  intros [_ Hs]%andb_true_iff. by apply IH.
Qed.

Lemma sub_extension_ascii (v : pyval) :
  ascii_text v → ∃ s, sub_extension v = Ok (PStr s).
Proof.
  intros (s & -> & Hs). unfold sub_extension, strip_extension.
  rewrite all_ascii_drop by done. simpl.
  destruct (dot_three _); [by eexists|].
  destruct (_ && _); by eexists.
Qed.

Lemma append_nonempty_r (s t : string) : t ≠ "" → s +:+ t ≠ "".
Proof. destruct s; simpl; [done|discriminate]. Qed.

(** A rendering that emits a literal character is not empty. *)
Lemma str_format_literal (kwargs : string → option pyval) (mode : fmode)
    (template text : string) :
  str_format kwargs mode template = Ok text →
  has_literal mode template = true →
  text ≠ "".
Proof.
  revert mode text.
  induction template as [|c rest IH]; intros mode text; simpl; [done|].
  destruct mode as [| |name].
  - destruct (Ascii.eqb c "{"); [apply IH|].
    destruct (Ascii.eqb c "}"); [apply IH|].
    destruct (str_format kwargs Text rest); [|done..].
    by intros [= <-].
  - destruct (Ascii.eqb c "}"); [|done].
    destruct (str_format kwargs Text rest); [|done..].
    by intros [= <-].
  - destruct (Ascii.eqb c "}").
    + destruct (format_field kwargs name) as [f| |]; [|done..]. simpl.
      destruct (str_format kwargs Text rest) as [o| |] eqn:Ho; [|done..].
      intros [= <-] Hlit. apply append_nonempty_r. by eapply IH.
    + destruct (Ascii.eqb c "{").
      * case_bool_decide; [|done].
        destruct (str_format kwargs Text rest); [|done..].
        by intros [= <-].
      * destruct (beyond_plain_field c); [done|apply IH].
Qed.

(** ** Query failures while the text is rendered *)

Lemma state_format_raise (self : Py3status) (i3s_config : I3sConfig) (p : Player)
    (e : exn) :
  _get_state_format self i3s_config p = Raise e → PlaybackStatus p = Raise e.
Proof.
  unfold _get_state_format. destruct (PlaybackStatus p) as [s| |]; simpl.
  - by repeat case_bool_decide.
  - by intros [= ->].
  - done.
Qed.

Lemma try_block_failure (self : Py3status) (i3s_config : I3sConfig) (p : Player)
    (l : locals) (e : exn) :
  try_block self i3s_config p initial_locals = (l, Raise e) →
  query_failure self i3s_config p l ∨ metadata_failure self i3s_config p l.
Proof.
  unfold try_block, step.
  destruct (Identity p) as [identity|e1|] eqn:H1; [|intros [= <- _]|done].
  2: { left. by eapply identity_fails. }
  destruct (_get_state_format self i3s_config p) as [[color state]|e2|] eqn:H2;
    [|intros [= <- _]|done].
  2: { left. eapply state_fails; [done|]. by eapply state_format_raise. }
  destruct (Position p) as [pos|e3|] eqn:H3; [|intros [= <- _]|done].
  2: { left. by eapply position_fails. }
  destruct (_get_time_str pos) as [time|e4|] eqn:H4; [|intros [= <- _]|done].
  2: { left. by eapply position_malformed. }
  destruct (Metadata p) as [md|e5|] eqn:H5; [|intros [= <- _]|done].
  2: { left. by eapply metadata_fails. }
  unfold metadata_block, step.
  destruct (Nat.ltb_spec 0 (size md)) as [Hsize|Hsize]; [|done].
  destruct (not_local_file _) as [b|e6|] eqn:H6; [|intros [= <- _]|done].
  2: { left. by eapply url_malformed. }
  destruct (md !! "xesam:artist") as [a|] eqn:H7.
  - destruct (item0 a) as [a0|e8|] eqn:H8; [|intros [= <- _]|done].
    2: { right. by eapply artist_malformed. }
    destruct (md !! "mpris:length") as [len|] eqn:H9; [|done].
    destruct (_get_time_str len) as [t|e10|] eqn:H10; [done|intros [= <- _]|done].
    right. by eapply length_malformed.
  - destruct (md !! "mpris:length") as [len|] eqn:H9; [|done].
    destruct (_get_time_str len) as [t|e10|] eqn:H10; [done|intros [= <- _]|done].
    right. by eapply length_malformed_stream.
Qed.

Lemma query_failure_locals (self : Py3status) (i3s_config : I3sConfig)
    (p : Player) (l : locals) :
  query_failure self i3s_config p l →
  (∃ e, try_block self i3s_config p initial_locals = (l, Raise e))
  ∧ v_is_stream l = false
  ∧ v_album l = PStr UNKNOWN ∧ v_artist l = PStr UNKNOWN
  ∧ v_title l = PStr UNKNOWN ∧ v_length l = UNKNOWN_TIME.
Proof.
  unfold try_block, step.
  destruct 1 as [e H1|id e H1 H2|id c st e H1 H2 H3|id c st pos e H1 H2 H3 H4
                |id c st pos t e H1 H2 H3 H4 H5
                |id c st pos t md e H1 H2 H3 H4 H5 Hsize H6].
  - rewrite H1. by split_and!; [eexists|..].
  - rewrite H1. unfold _get_state_format. rewrite H2. by split_and!; [eexists|..].
  - rewrite H1, H2, H3. by split_and!; [eexists|..].
  - rewrite H1, H2, H3, H4. by split_and!; [eexists|..].
  - rewrite H1, H2, H3, H4, H5. by split_and!; [eexists|..].
  - rewrite H1, H2, H3, H4, H5. unfold metadata_block, step.
    apply Nat.ltb_lt in Hsize. rewrite Hsize, H6. by split_and!; [eexists|..].
Qed.

Lemma metadata_failure_locals (self : Py3status) (i3s_config : I3sConfig)
    (p : Player) (l : locals) :
  metadata_failure self i3s_config p l →
  (∃ e, try_block self i3s_config p initial_locals = (l, Raise e))
  ∧ ∃ md,
      Metadata p = Ok md
      ∧ v_title l = get_or (md !! "xesam:title") (PStr UNKNOWN)
      ∧ v_album l = get_or (md !! "xesam:album") (PStr UNKNOWN)
      ∧ (v_artist l = PStr UNKNOWN
         ∨ ∃ a, md !! "xesam:artist" = Some a ∧ item0 a = Ok (v_artist l))
      ∧ v_length l = UNKNOWN_TIME.
Proof.
  unfold try_block, step.
  destruct 1 as [id c st pos t md b a e H1 H2 H3 H4 H5 Hsize H6 H7 H8
                |id c st pos t md b a a0 len e H1 H2 H3 H4 H5 Hsize H6 H7 H8 H9 H10
                |id c st pos t md b len e H1 H2 H3 H4 H5 Hsize H6 H7 H9 H10];
    rewrite H1, H2, H3, H4, H5; unfold metadata_block, step;
    apply Nat.ltb_lt in Hsize; rewrite Hsize, H6, H7.
  - rewrite H8. split; [by eexists|]. exists md. split_and!; try done. by left.
  - rewrite H8, H9, H10. split; [by eexists|]. exists md. split_and!; try done.
    right. by exists a.
  - rewrite H9, H10. split; [by eexists|]. exists md. split_and!; try done. by left.
Qed.

(** The text after a failure in the [try]. *)
Lemma text_after_failure (self : Py3status) (i3s_config : I3sConfig) (p : Player)
    (l : locals) (e : exn) :
  try_block self i3s_config p initial_locals = (l, Raise e) →
  _get_text self i3s_config p
  = if v_is_stream l then
      title ← sub_extension (v_title l);
      text ← str_format (keywords (set_title title l)) Text (format_stream self);
      mret (text, color_bad i3s_config)
    else
      text ← str_format (keywords l) Text (format self);
      mret (text, color_bad i3s_config).
Proof.
  intros Htry. unfold _get_text, try_except. rewrite Htry. simpl mbind.
  unfold render.
  change (v_is_stream (set_color (color_bad i3s_config) l)) with (v_is_stream l).
  change (v_title (set_color (color_bad i3s_config) l)) with (v_title l).
  destruct (v_is_stream l); simpl mbind.
  - destruct (sub_extension (v_title l)) as [title| |]; [|done..]. simpl mbind.
    change (keywords (set_title title (set_color (color_bad i3s_config) l)))
      with (keywords (set_title title l)).
    by destruct (str_format _ _ _).
  - change (keywords (set_color (color_bad i3s_config) l)) with (keywords l).
    by destruct (str_format _ _ _).
Qed.

Lemma text_after_failure_returns (self : Py3status) (i3s_config : I3sConfig)
    (p : Player) (l : locals) (e : exn) :
  try_block self i3s_config p initial_locals = (l, Raise e) →
  plain_template Text (chosen_template self l) = true →
  readable l →
  ∃ text,
    _get_text self i3s_config p = Ok (text, color_bad i3s_config)
    ∧ (has_literal Text (chosen_template self l) = true → text ≠ "").
Proof.
  intros Htry Hplain (Halbum & Hartist & Htitle).
  rewrite (text_after_failure _ _ _ _ _ Htry).
  unfold chosen_template in *. destruct (v_is_stream l).
  - destruct (sub_extension_ascii _ Htitle) as [s ->]. simpl mbind.
    destruct (str_format_plain (set_title (PStr s) l) Text (format_stream self))
      as [text Htext]; [done..|].
    exists text. rewrite Htext. split; [done|].
    by apply (str_format_literal _ _ _ _ Htext).
  - destruct (str_format_plain l Text (format self)) as [text Htext]; [done..|].
    exists text. rewrite Htext. split; [done|].
    by apply (str_format_literal _ _ _ _ Htext).
Qed.

(** C5, as the code has it.  A failure inside the [try] is of one of two
    kinds, and there is no third (last part).

    Reading the identity, the state, the position or the metadata fails, or
    the url of the metadata cannot be tested.  Then the text is the
    track-mode template rendered on the variables assigned before the
    failure and on the fallbacks for all others -- ['Unknown'] for album,
    artist and title, ['-:--'] for the length, and likewise for player,
    state and time if not yet assigned -- and the colour is [color_bad].
    If the template is plain (literal text, the escapes, fields naming the
    seven placeholders), a text is returned, and it is not empty as soon as
    the template has a literal character.

    The first artist or the length cannot be taken from the metadata.  Then
    title and album are those of the metadata, the artist is the fallback
    unless it was read, the length is the fallback and the colour is
    [color_bad].  The template is the one chosen up to the failure:
    stream-mode, on the title with its extension cut, if the url or the
    missing artist said so.  If that template is plain and album, artist
    and title can be rendered, a text is returned, and it is not empty as
    soon as the template has a literal character. *)
Theorem C5_query_failure_fallback (self : Py3status) (i3s_config : I3sConfig)
    (p : Player) (l : locals) :
  (query_failure self i3s_config p l →
   (v_album l = PStr UNKNOWN ∧ v_artist l = PStr UNKNOWN
    ∧ v_title l = PStr UNKNOWN ∧ v_length l = UNKNOWN_TIME)
   ∧ _get_text self i3s_config p
     = (text ← str_format (keywords l) Text (format self);
        mret (text, color_bad i3s_config))
   ∧ (plain_template Text (format self) = true →
      ∃ text,
        _get_text self i3s_config p = Ok (text, color_bad i3s_config)
        ∧ (has_literal Text (format self) = true → text ≠ "")))
  ∧ (metadata_failure self i3s_config p l →
     (∃ md,
        Metadata p = Ok md
        ∧ v_title l = get_or (md !! "xesam:title") (PStr UNKNOWN)
        ∧ v_album l = get_or (md !! "xesam:album") (PStr UNKNOWN)
        ∧ (v_artist l = PStr UNKNOWN
           ∨ ∃ a, md !! "xesam:artist" = Some a ∧ item0 a = Ok (v_artist l))
        ∧ v_length l = UNKNOWN_TIME)
     ∧ _get_text self i3s_config p
       = (if v_is_stream l then
            title ← sub_extension (v_title l);
            text ← str_format (keywords (set_title title l)) Text
                     (format_stream self);
            mret (text, color_bad i3s_config)
          else
            text ← str_format (keywords l) Text (format self);
            mret (text, color_bad i3s_config))
     ∧ (plain_template Text (chosen_template self l) = true →
        readable l →
        ∃ text,
          _get_text self i3s_config p = Ok (text, color_bad i3s_config)
          ∧ (has_literal Text (chosen_template self l) = true → text ≠ "")))
  ∧ (∀ e, try_block self i3s_config p initial_locals = (l, Raise e) →
          query_failure self i3s_config p l ∨ metadata_failure self i3s_config p l).
Proof.
  split_and!.
  - intros Hfail.
    destruct (query_failure_locals _ _ _ _ Hfail)
      as ([e Htry] & Hstream & Halbum & Hartist & Htitle & Hlength).
    split; [done|].
    pose proof (text_after_failure _ _ _ _ _ Htry) as Heq.
    rewrite Hstream in Heq. split; [done|].
    intros Hplain.
    destruct (text_after_failure_returns _ _ _ _ _ Htry) as [text Htext].
    + unfold chosen_template. by rewrite Hstream.
    + unfold readable. by rewrite Hstream, Halbum, Hartist, Htitle.
    + unfold chosen_template in Htext. rewrite Hstream in Htext. by exists text.
  - intros Hfail.
    destruct (metadata_failure_locals _ _ _ _ Hfail) as ([e Htry] & Hmd).
    split; [done|]. split; [by eapply text_after_failure|].
    by eapply text_after_failure_returns.
  - apply try_block_failure.
Qed.


(** A player that answers nothing: fallbacks all over.  A stream whose
    artist array is empty: the title is shown, its extension cut. *)
Lemma C5_query_failure_fallback_witness :
  _get_text defaults i3s no_answer = Ok ("Unknown Unknown - Unknown", "#FF0000")
  ∧ (∃ text,
       _get_text defaults i3s no_answer = Ok (text, "#FF0000")
       ∧ (has_literal Text (format defaults) = true → text ≠ ""))
  ∧ ∃ text,
      _get_text defaults i3s (player_with_metadata no_first_artist)
      = Ok (text, "#FF0000")
      ∧ (has_literal Text (format_stream defaults) = true → text ≠ "").
Proof.
  destruct (C5_query_failure_fallback defaults i3s no_answer initial_locals)
    as (Hquery & _ & _).
  destruct (Hquery (identity_fails defaults i3s no_answer GError eq_refl))
    as (_ & Heq & Hret).
  split; [exact Heq|]. split; [exact (Hret eq_refl)|].
  destruct (C5_query_failure_fallback defaults i3s
              (player_with_metadata no_first_artist)
              (titled_locals no_first_artist true
                 (queried_locals "VLC" "#00FF00" "▶" "0:45")))
    as (_ & Hmetadata & _).
  assert (0 < size no_first_artist)%nat as Hsize by (vm_compute; lia).
  destruct (Hmetadata
              (artist_malformed defaults i3s (player_with_metadata no_first_artist)
                 "VLC" "#00FF00" "▶" (PInt 45000000) "0:45" no_first_artist true
                 (PList []) IndexError
                 eq_refl eq_refl eq_refl eq_refl eq_refl Hsize eq_refl eq_refl eq_refl))
    as (_ & _ & Hret').
  apply (Hret' eq_refl).
  split; [done|]. split; [done|]. by exists "Live.mp3".
Defined.

(** C5 as stated fails.  With a player that answers nothing: a template
    naming an unknown placeholder raises, and the empty template gives the
    empty text.  And a title that is no text raises outside the [try]. *)
Lemma C5_counterexample :
  _get_text (with_formats "{genre}" "{title}") i3s no_answer = Raise KeyError
  ∧ _get_text (with_formats "" "{title}") i3s no_answer = Ok ("", "#FF0000")
  ∧ _get_text defaults i3s (player_with_metadata title_array) = Raise TypeError.
Proof. vm_compute. done. Qed.

(** ** Stream or track *)

(** When the metadata block runs to its end, the stream flag is set exactly
    if the metadata is empty, or has no artist, or has a url without
    ['file://'] in it. *)
Lemma metadata_block_stream (md : gmap string pyval) (l l' : locals) :
  metadata_block md l = (l', Ok ()) →
  v_is_stream l' = true
  ↔ (size md = 0%nat ∨ md !! "xesam:artist" = None
     ∨ not_local_file (md !! "xesam:url") = Ok true).
Proof.
  unfold metadata_block, step.
  destruct (Nat.ltb_spec 0 (size md)) as [Hsize|Hsize].
  - destruct (not_local_file _) as [b| |]; [|by intros [= _ ?]..].
    destruct (md !! "xesam:artist") as [a|].
    + destruct (item0 a) as [a0| |]; [|by intros [= _ ?]..].
      destruct (md !! "mpris:length") as [len|].
      * destruct (_get_time_str len); intros [= <-]; simpl; [|done..].
        split; [intros ->; by right; right|].
        intros [?|[?|[= ->]]]; [lia|done..].
      * intros [= <-]; simpl.
        split; [intros ->; by right; right|].
        intros [?|[?|[= ->]]]; [lia|done..].
    + destruct (md !! "mpris:length") as [len|].
      * destruct (_get_time_str len); intros [= <-]; simpl; [|done..].
        split; [by right; left|done].
      * intros [= <-]; simpl. split; [by right; left|done].
  - intros [= <-]. simpl. split; [left; lia|done].
Qed.

(** C4 on the code.  Metadata with a title and a length but neither artist
    nor url: the url test fails inside the [try], the stream flag stays
    unset and the track-mode template is rendered on fallbacks, in
    [color_bad].  With a url the same metadata gets the stream-mode
    template. *)
Lemma C4_artist_absent_track_template :
  video_no_url !! "xesam:artist" = None
  ∧ _get_text (with_formats "track {title}" "stream {title}") i3s
      (player_with_metadata video_no_url) = Ok ("track Unknown", "#FF0000")
  ∧ _get_text (with_formats "track {title}" "stream {title}") i3s
      (player_with_metadata video_with_url) = Ok ("stream Movie", "#00FF00").
Proof. vm_compute. done. Qed.

(** ** Failures and the host *)

Lemma _get_player_no_raise (bus : Bus) (name : string) (e : exn) :
  _get_player bus name ≠ Raise e.
Proof. unfold _get_player. by destruct (get bus _). Qed.

(** Line 310 ends every refresh before anything else happens. *)
Lemma mpris_NameError (self : Py3status) (i3s_config : I3sConfig) (clock : Z)
    (session : outcome Bus) :
  mpris self i3s_config clock session = (self, Raise NameError).
Proof. reflexivity. Qed.

(** C3, as the code has it.  The lookup of a player never raises; when the
    detection returns a name that cannot be reached, the refresh body
    returns the no-player text in [color_bad].  A click ends the way the
    command it sends ends, error included, and returns normally when it
    sends none; with no player selected, a click that would send a command
    ends with [AttributeError]. *)
Theorem C3_failures (self : Py3status) (i3s_config : I3sConfig) (cached : Z)
    (bus : Bus) (ev : click_event) :
  (∀ name e, _get_player bus name ≠ Raise e)
  ∧ (∀ selected e,
        _detect_running_player self bus = Ok selected →
        get bus (SERVICE_BUS +:+ "." +:+ selected) = Raise e →
        mpris_body self i3s_config cached (Ok bus)
        = (set_player self None, Ok (no_player_payload self i3s_config cached)))
  ∧ (∀ p, _player self = Some (Some p) →
          (on_click self ev).2 = match (on_click self ev).1 with
                                 | [] => Ok ()
                                 | c :: _ => invoke p c
                                 end)
  ∧ (∀ p, (on_click (set_player self (Some p)) ev).1 ≠ [] →
          on_click (set_player self None) ev = ([], Raise AttributeError)).
Proof.
  split_and!.
  - intros name e. apply _get_player_no_raise.
  - intros selected e Hsel Hget. unfold mpris_body. simpl mbind.
    rewrite Hsel. simpl mbind. unfold _get_player. rewrite Hget. done.
  - intros p Hp. unfold on_click, call_player. rewrite Hp.
    repeat case_bool_decide; done.
  - intros p. unfold on_click, call_player. simpl.
    repeat case_bool_decide; done.
Qed.

(** vlc listed but out of reach; a player whose commands fail; no player. *)
Lemma C3_failures_witness :
  mpris_body (with_priority "vlc") i3s 7 (Ok vlc_unreachable)
  = (set_player (with_priority "vlc") None,
     Ok (no_player_payload (with_priority "vlc") i3s 7))
  ∧ (on_click (set_player defaults (Some no_answer))
       {| ev_index := "text"; ev_button := 1 |}).2 = Raise GError
  ∧ on_click (set_player defaults None) {| ev_index := "text"; ev_button := 1 |}
    = ([], Raise AttributeError).
Proof.
  pose proof (C3_failures (with_priority "vlc") i3s 7 vlc_unreachable
                {| ev_index := "text"; ev_button := 1 |}) as (_ & Hbody & _ & _).
  pose proof (C3_failures (set_player defaults (Some no_answer)) i3s 7 vlc_unreachable
                {| ev_index := "text"; ev_button := 1 |}) as (_ & _ & Hclick & Hnone).
  split; [|split].
  - exact (Hbody "vlc" GError eq_refl eq_refl).
  - exact (Hclick no_answer eq_refl).
  - apply (Hnone no_answer). discriminate.
Defined.

(** C3 as stated fails.  A command that fails ends the click with the bus
    error, and a click without a player ends with [AttributeError]; the
    refresh ends with the bus error when the enumeration fails, and with
    [NameError] in any case, [time] being bound nowhere. *)
Lemma C3_counterexample :
  on_click (set_player defaults (Some no_answer))
    {| ev_index := "next"; ev_button := 1 |} = ([Next], Raise GError)
  ∧ on_click (set_player defaults None)
      {| ev_index := "next"; ev_button := 1 |} = ([], Raise AttributeError)
  ∧ (mpris_body defaults i3s 0
       (Ok {| ListNames := bus_error; get := λ _, bus_error |})).2 = Raise GError
  ∧ (mpris defaults i3s 0 (Ok mpd_paused_vlc_playing)).2 = Raise NameError.
Proof. vm_compute. done. Qed.

(** * Further properties of the module *)

(** ** The control buttons *)

Lemma buttons_loop_index (self : Py3status) (state : string) (order : list string) :
  index <$> buttons_loop self state order = filter (λ b, b ∈ controls) order.
Proof.
  induction order as [|b order IH]; [done|].
  assert (∀ n : string, n ∈ controls → n ∈ controls) as Hin by done.
  cbn [buttons_loop]. rewrite filter_cons.
  repeat case_bool_decide; subst.
  - rewrite decide_True by (unfold controls; repeat ((by left) || right)).
    cbn. by rewrite IH.
  - rewrite decide_True by (unfold controls; repeat ((by left) || right)).
    cbn. by rewrite IH.
  - rewrite decide_True by (unfold controls; repeat ((by left) || right)).
    cbn. by rewrite IH.
  - rewrite decide_True by (unfold controls; repeat ((by left) || right)).
    cbn. by rewrite IH.
  - rewrite decide_False; [done|].
    unfold controls. intros Hb.
    repeat (apply elem_of_cons in Hb as [?|Hb]; [done|]).
    by apply elem_of_nil in Hb.
Qed.

Lemma buttons_loop_entries (self : Py3status) (state : string) (order : list string) :
  Forall (λ e, color e = "#CCCCCC"
               ∧ (index e = "play" → full_text e = " " +:+ state +:+ " ")
               ∧ (index e = "stop" → full_text e = " " +:+ state_stop self +:+ " ")
               ∧ (index e = "next" → full_text e = " " +:+ state_next self +:+ " ")
               ∧ (index e = "previous"
                  → full_text e = " " +:+ state_previous self +:+ " "))
         (buttons_loop self state order).
Proof.
  induction order as [|b order IH]; cbn [buttons_loop]; [constructor|].
  repeat case_bool_decide; try done; constructor; try done;
    cbn; split_and!; done.
Qed.

(** X1.  When the status is read, the buttons are, in the configured
    order, one entry for each configured name that is one of play, stop,
    next, previous -- other names are skipped, repeated names give repeated
    entries.  Each entry has the fixed colour and its glyph between two
    spaces; the play entry shows the pause glyph exactly when the status is
    ['Playing']. *)
Theorem buttons_follow_order (self : Py3status) (p : Player) (status : string) :
  PlaybackStatus p = Ok status →
  ∃ bs,
    _get_response_buttons self p = Ok bs
    ∧ index <$> bs = filter (λ b, b ∈ controls) (split "," (buttons_order self))
    ∧ Forall (λ e,
        color e = "#CCCCCC"
        ∧ (index e = "play" →
           full_text e
           = " " +:+ (if bool_decide (status = "Playing")
                      then state_pause self else state_play self) +:+ " ")
        ∧ (index e = "stop" → full_text e = " " +:+ state_stop self +:+ " ")
        ∧ (index e = "next" → full_text e = " " +:+ state_next self +:+ " ")
        ∧ (index e = "previous"
           → full_text e = " " +:+ state_previous self +:+ " ")) bs.
Proof.
  intros Hstatus. unfold _get_response_buttons. rewrite Hstatus.
  eexists. split; [reflexivity|]. split.
  - apply buttons_loop_index.
  - apply buttons_loop_entries.
Qed.

(** The buttons of the default order, for a player that is playing. *)
Lemma buttons_follow_order_witness :
  ∃ bs,
    _get_response_buttons defaults (player_with "Playing") = Ok bs
    ∧ index <$> bs = ["previous"; "play"; "next"]
    ∧ full_text <$> bs = [" « "; " ▮▮ "; " » "].
Proof.
  destruct (buttons_follow_order defaults (player_with "Playing") "Playing" eq_refl)
    as (bs & Hbs & Hidx & _).
  exists bs. split; [exact Hbs|]. split; [exact Hidx|].
  injection Hbs as <-. reflexivity.
Defined.

(** ** The enumeration of players *)

Lemma running_players_app (l1 l2 : list string) :
  running_players (l1 ++ l2) = running_players l1 ++ running_players l2.
Proof.
  induction l1 as [|n l1 IH]; simpl; [done|].
  destruct (contains SERVICE_BUS n); simpl; by rewrite IH.
Qed.

(** X2.  A player registered as [org.mpris.MediaPlayer2.<name>] is
    enumerated as [<name>], in bus order, whatever [<name>] is; and a bus
    name that does not contain [org.mpris.MediaPlayer2] adds nothing. *)
Theorem running_players_names (names before after : list string) (other : string) :
  running_players ((λ n, SERVICE_BUS +:+ "." +:+ n) <$> names) = names
  ∧ (contains SERVICE_BUS other = false →
     running_players (before ++ other :: after) = running_players (before ++ after)).
Proof.
  split.
  - induction names as [|n names IH]; [done|].
    rewrite fmap_cons. cbn [running_players].
    change (contains SERVICE_BUS (SERVICE_BUS +:+ "." +:+ n)) with true.
    cbn iota. change (strip_service_prefix (SERVICE_BUS +:+ "." +:+ n)) with n.
    by rewrite IH.
  - intros Hother. rewrite !running_players_app. simpl. by rewrite Hother.
Qed.

Lemma running_players_names_witness :
  running_players ["org.mpris.MediaPlayer2.vlc"; "org.mpris.MediaPlayer2.mpd"]
  = ["vlc"; "mpd"]
  ∧ running_players (["org.mpris.MediaPlayer2.vlc"] ++ "org.freedesktop.DBus" :: [])
    = running_players (["org.mpris.MediaPlayer2.vlc"] ++ []).
Proof.
  split.
  - exact (proj1 (running_players_names ["vlc"; "mpd"] [] [] "")).
  - exact (proj2 (running_players_names [] ["org.mpris.MediaPlayer2.vlc"] []
                    "org.freedesktop.DBus") eq_refl).
Defined.

(** ** The extension of a stream title *)

Lemma string_length_app (s t : string) :
  String.length (s +:+ t) = (String.length s + String.length t)%nat.
Proof. induction s as [|c s IH]; simpl; [done|by rewrite IH]. Qed.

Lemma string_drop_app (s t : string) : string_drop (String.length s) (s +:+ t) = t.
Proof. induction s as [|c s IH]; simpl; done. Qed.

Lemma string_take_app (s t : string) : string_take (String.length s) (s +:+ t) = s.
Proof.
  induction s as [|c s IH]; simpl; [by destruct t|by rewrite IH].
Qed.

Lemma string_take_length (k : nat) (s : string) :
  String.length (string_take k s) = (k `min` String.length s)%nat.
Proof.
  revert s. induction k as [|k IH]; intros [|c s]; simpl; try done.
  by rewrite IH.
Qed.

Lemma string_drop_length (k : nat) (s : string) :
  String.length (string_drop k s) = (String.length s - k)%nat.
Proof.
  revert s. induction k as [|k IH]; intros [|c s]; simpl; done.
Qed.

Lemma dot_three_length (s : string) : dot_three s = true → String.length s = 4%nat.
Proof.
  destruct s as [|d [|a [|b [|c [|e s]]]]]; simpl; try done;
    destruct d as [[] [] [] [] [] [] [] []]; done.
Qed.

(** X3.  For a title of ASCII text: a dot and any three characters other
    than newline at its end are cut off, whatever they are; and whenever the
    substitution changes a title, the result is four characters shorter. *)
Theorem strip_extension_three (name ext title result : string) :
  (all_ascii (name +:+ String "." ext) = true →
   dot_three (String "." ext) = true →
   strip_extension (name +:+ String "." ext) = Ok name)
  ∧ (strip_extension title = Ok result →
     result = title
     ∨ (String.length result + 4 = String.length title)%nat).
Proof.
  split.
  - intros Hascii Hdot. unfold strip_extension.
    pose proof (dot_three_length _ Hdot) as Hlen.
    rewrite string_length_app, Hlen.
    rewrite (all_ascii_drop _ _ Hascii). cbn [negb].
    replace (String.length name + 4 - 4)%nat with (String.length name) by lia.
    by rewrite string_drop_app, Hdot, string_take_app.
  - unfold strip_extension.
    destruct (negb _); [done|].
    destruct (dot_three (string_drop _ title)) eqn:Hdot.
    + intros [= <-]. right.
      apply dot_three_length in Hdot.
      rewrite string_drop_length in Hdot. rewrite string_take_length. lia.
    + destruct (_ && _) eqn:Hnl; intros [= <-]; [right|by left].
      apply andb_true_iff in Hnl as [[Hfive%Nat.leb_le _]%andb_true_iff _].
      rewrite string_length_app, string_take_length. simpl. lia.
Qed.

Lemma strip_extension_three_witness :
  strip_extension "Concert.III" = Ok "Concert"
  ∧ (strip_extension "a.b.mp3" = Ok "a.b" →
     "a.b" = "a.b.mp3" ∨ (String.length "a.b" + 4 = String.length "a.b.mp3")%nat).
Proof.
  split.
  - exact (proj1 (strip_extension_three "Concert" "III" "" "") eq_refl eq_refl).
  - exact (proj2 (strip_extension_three "" "" "a.b.mp3" "a.b")).
Defined.

(** ** Time texts *)

Lemma pretty_Z_negative (z : Z) : z < 0 → ∃ r, pretty z = String "-" r.
Proof. destruct z as [|p|p]; [lia..|]. intros _. by eexists. Qed.

Lemma pretty_Z_nonempty (z : Z) (r : string) : 0 < z → pretty z +:+ r ≠ "".
Proof. intros Hz. by destruct (pretty_Z_head z Hz) as (c & t & -> & _). Qed.

(** X4.  A microsecond count below 2^53 in absolute value, negative ones
    included, always gets a time text, and never an empty one: the indexing
    [time[0]] and the day limit of [timedelta] cannot fail there.  A count
    of less than a second in either direction is rendered as ["0:00"]. *)
Theorem time_text_total (us : Z) :
  Z.abs us < 2 ^ 53 →
  ∃ t, _get_time_str (PInt us) = Ok t
       ∧ t ≠ ""
       ∧ (-1000000 < us < 1000000 → t = "0:00").
Proof.
  intros Hus. unfold _get_time_str, time_str_of_int, seconds_of_micro.
  change (2 ^ 53) with 9007199254740992 in *.
  destruct (Z.ltb_spec (Z.abs us) 9007199254740992) as [_|?]; [|lia].
  simpl mbind. set (s := us `quot` 1000000).
  assert (Z.abs s < 9007199255) as Hs.
  { subst s. rewrite <-Z.quot_abs by lia.
    rewrite Z.quot_div_nonneg by lia. change (Z.abs 1000000) with 1000000.
    lia_div. }
  assert (-1000000 < us < 1000000 → s = 0) as Hzero.
  { intros ?. subst s. apply Z.quot_small_iff; lia. }
  unfold timedelta_str.
  destruct (Z.ltb_spec 999999999 (Z.abs (s `div` 86400))) as [?|_]; [lia_div|].
  simpl mbind.
  destruct (Z.eqb_spec (s `div` 86400) 0) as [Hday|Hday].
  - assert (0 ≤ s < 86400) as Hrange by lia_div.
    rewrite Z.mod_small by done.
    destruct (decide (s `div` 3600 = 0)) as [Hh|Hh].
    + rewrite Hh. rewrite (Z.mod_small (s `div` 60) 60) by lia_div.
      eexists. split; [apply (strip_leading_minutes (s `div` 60)); lia_div|].
      split.
      * by apply append_nonempty_r.
      * intros Hsmall. rewrite (Hzero Hsmall). reflexivity.
    + eexists. split; [apply strip_leading_pretty; lia_div|]. split.
      * apply pretty_Z_nonempty. lia_div.
      * intros Hsmall. rewrite (Hzero Hsmall) in Hh. done.
  - destruct (decide (0 < s `div` 86400)) as [Hpos|Hneg].
    + eexists. split; [by apply strip_leading_pretty|]. split.
      * by apply pretty_Z_nonempty.
      * intros Hsmall. rewrite (Hzero Hsmall) in Hday. done.
    + destruct (pretty_Z_negative (s `div` 86400)) as [r Hr]; [lia|].
      rewrite Hr. cbn [String.append].
      eexists. split; [by apply strip_leading_nonzero|]. split; [done|].
      intros Hsmall. rewrite (Hzero Hsmall) in Hday. done.
Qed.

Lemma time_text_total_witness :
  ∃ t, _get_time_str (PInt (-250000)) = Ok t
       ∧ t ≠ ""
       ∧ (-1000000 < -250000 < 1000000 → t = "0:00").
Proof. apply time_text_total. vm_compute. reflexivity. Defined.

(** ** What the detection can select *)

Lemma scan_result (bus : Bus) (cands pa st : list string) (r : string) :
  scan bus cands pa st = Ok r →
  r ∈ cands ∨ r ∈ pa ∨ r ∈ st ∨ r = "None".
Proof.
  revert pa st. induction cands as [|c cands IH]; intros pa st.
  - destruct pa as [|p pa]; [destruct st as [|s st]|]; intros [= <-].
    + by right; right; right.
    + right; right; left. by left.
    + right; left. by left.
  - rewrite scan_unfold.
    destruct (_get_state bus c) as [s| |]; [|done..].
    destruct (classify s).
    + intros [= <-]. left. by left.
    + intros [Hr|[Hr|Hr]]%IH.
      * left. by right.
      * apply elem_of_app in Hr as [?|Hr]; [by right; left|].
        apply list_elem_of_singleton in Hr as ->. left. by left.
      * by right; right.
    + intros [Hr|[Hr|[Hr|Hr]]]%IH.
      * left. by right.
      * by right; left.
      * apply elem_of_app in Hr as [?|Hr]; [by right; right; left|].
        apply list_elem_of_singleton in Hr as ->. left. by left.
      * by right; right; right.
Qed.

Lemma candidate_order_running (priority : option string) (players : list string)
    (c : string) :
  c ∈ candidate_order priority players →
  c ∈ players
  ∧ ∀ p, priority = Some p → ("*" ∉ split "," p) → c ∈ split "," p.
Proof.
  destruct priority as [p|]; [|by intros ?; split].
  unfold candidate_order.
  destruct (prioritize_spec (split "," p) players [])
    as (named & rest & Heq & _ & Hrest & _ & Hm).
  rewrite Heq. simpl. case_bool_decide as Hstar.
  - intros [Hc|Hc]%elem_of_app; (split; [|by intros ? [= <-] ?]).
    + by apply Hm in Hc as [_ ?].
    + by apply (elem_of_sublist _ _ _ Hc).
  - intros Hc. apply Hm in Hc as [??]. split; [done|]. by intros ? [= <-] _.
Qed.

(** X5.  Whatever the players answer, a name returned by the detection is
    the sentinel ['None'] or one of the enumerated players; and when the
    priority list has no wildcard, it is the sentinel or a name of the
    list: a player that is not listed is never selected. *)
Theorem detection_selects_running (self : Py3status) (bus : Bus)
    (names : list string) (r : string) :
  ListNames bus = Ok names →
  _detect_running_player self bus = Ok r →
  (r = "None" ∨ r ∈ running_players names)
  ∧ ∀ p, player_priority self = Some p → ("*" ∉ split "," p) →
         r = "None" ∨ r ∈ split "," p.
Proof.
  intros Hnames. unfold _detect_running_player. rewrite Hnames. simpl mbind.
  intros [Hr|[Hr|[Hr|Hr]]]%scan_result;
    try (by apply elem_of_nil in Hr); [|by split; [left|intros; left]].
  apply candidate_order_running in Hr as [Hrun Hlisted].
  split; [by right|]. intros p Hp Hstar. right. by apply Hlisted.
Qed.

(** Only mpd is listed: vlc is playing and is passed over. *)
Lemma detection_selects_running_witness :
  _detect_running_player (with_priority "mpd") mpd_paused_vlc_playing = Ok "mpd"
  ∧ (("mpd" : string) = "None"
     ∨ "mpd" ∈ running_players ["org.freedesktop.DBus"; "org.mpris.MediaPlayer2.vlc";
                                 "org.mpris.MediaPlayer2.mpd"])
  ∧ (("mpd" : string) = "None" ∨ "mpd" ∈ split "," "mpd").
Proof.
  split; [reflexivity|].
  destruct (detection_selects_running (with_priority "mpd") mpd_paused_vlc_playing
              _ "mpd" eq_refl eq_refl) as [Hrunning Hlisted].
  split; [exact Hrunning|].
  apply (Hlisted "mpd" eq_refl).
  intros [=]%list_elem_of_singleton.
Defined.

(** X6.  With a wildcard anywhere in the priority list, the candidate
    order is a rearrangement of the enumerated players: nobody is lost and
    nobody is asked twice for being listed.  The names of the list that are
    running come first. *)
Theorem wildcard_keeps_everyone (p : string) (players : list string) :
  "*" ∈ split "," p →
  candidate_order (Some p) players ≡ₚ players
  ∧ ∃ named rest,
      candidate_order (Some p) players = named ++ rest
      ∧ (∀ x, x ∈ named ↔ x ∈ split "," p ∧ x ∈ players)
      ∧ sublist rest players.
Proof.
  intros Hstar. unfold candidate_order.
  destruct (prioritize_spec (split "," p) players [])
    as (named & rest & Heq & _ & Hrest & Hperm & Hm).
  rewrite Heq. simpl. rewrite bool_decide_true by done.
  split; [by rewrite Hperm|]. by exists named, rest.
Qed.

Lemma wildcard_keeps_everyone_witness :
  candidate_order (Some "vlc,*,mpd") ["mpd"; "bomi"; "vlc"] ≡ₚ ["mpd"; "bomi"; "vlc"]
  ∧ ∃ named rest,
      candidate_order (Some "vlc,*,mpd") ["mpd"; "bomi"; "vlc"] = named ++ rest
      ∧ (∀ x, x ∈ named ↔ x ∈ split "," "vlc,*,mpd" ∧ x ∈ ["mpd"; "bomi"; "vlc"])
      ∧ sublist rest ["mpd"; "bomi"; "vlc"].
Proof.
  apply wildcard_keeps_everyone. vm_compute. right. left.
Defined.

(** ** State, colour and glyph *)

Lemma color_or_nonempty (c : option string) (default : string) :
  default ≠ "" → color_or c default ≠ "".
Proof. intros Hd. destruct c as [s|]; simpl; [by case_bool_decide|done]. Qed.

(** X7.  The state format of a player follows the three-way reading of
    its status that the scan uses: the play, pause or stop glyph with the
    colour of that state.  An override colour that is unset or empty gives
    way to the host colour, so with host colours that are not empty the
    colour returned is never empty. *)
Theorem state_format_by_bucket (self : Py3status) (i3s_config : I3sConfig)
    (p : Player) (status : string) :
  PlaybackStatus p = Ok status →
  ∃ c st,
    _get_state_format self i3s_config p = Ok (c, st)
    ∧ (c, st) = match classify status with
                | Playing =>
                    (color_or (color_playing self) (color_good i3s_config),
                     state_play self)
                | Paused =>
                    (color_or (color_paused self) (color_degraded i3s_config),
                     state_pause self)
                | Stopped =>
                    (color_or (color_stopped self) (color_bad i3s_config),
                     state_stop self)
                end
    ∧ (color_good i3s_config ≠ "" → color_degraded i3s_config ≠ "" →
       color_bad i3s_config ≠ "" → c ≠ "").
Proof.
  intros Hstatus. unfold _get_state_format, classify. rewrite Hstatus. simpl.
  repeat case_bool_decide; eexists _, _; (split; [done|]); (split; [done|]);
    intros ???; by apply color_or_nonempty.
Qed.

Lemma state_format_by_bucket_witness :
  ∃ c st,
    _get_state_format defaults i3s (status_only (Ok "Buffering")) = Ok (c, st)
    ∧ (c, st) = ("#FF0000", "◾")
    ∧ (color_good i3s ≠ "" → color_degraded i3s ≠ "" → color_bad i3s ≠ "" → c ≠ "").
Proof.
  exact (state_format_by_bucket defaults i3s (status_only (Ok "Buffering"))
           "Buffering" eq_refl).
Defined.

(** ** Clicks *)

(** X8.  A click sends at most one command.  A click whose index is
    neither the text nor a control does nothing and ends normally, with or
    without a player; and without a player object no command is ever
    sent. *)
Theorem click_sends_at_most_one (self : Py3status) (ev : click_event) :
  (length (on_click self ev).1 ≤ 1)%nat
  ∧ (ev_index ev ∉ "text" :: controls → on_click self ev = ([], Ok ()))
  ∧ ((∀ p, _player self ≠ Some (Some p)) → (on_click self ev).1 = []).
Proof.
  unfold on_click, call_player. split_and!.
  - destruct (_player self) as [[p|]|]; repeat case_bool_decide; simpl; lia.
  - intros Hidx.
    assert (∀ n : string, n ∈ "text" :: controls → ev_index ev ≠ n) as Hne
      by (intros n Hn Heq; by rewrite Heq in Hidx).
    rewrite bool_decide_false by (apply Hne; set_solver).
    case_bool_decide; [|done].
    rewrite !bool_decide_false; [done|apply Hne; unfold controls..];
      repeat ((by left) || right).
  - intros Hnone.
    destruct (_player self) as [[p|]|]; [by destruct (Hnone p)|..];
      repeat case_bool_decide; done.
Qed.

Lemma click_sends_at_most_one_witness :
  (length (on_click vlc_selected {| ev_index := "volume"; ev_button := 1 |}).1 ≤ 1)%nat
  ∧ on_click vlc_selected {| ev_index := "volume"; ev_button := 1 |} = ([], Ok ())
  ∧ (on_click defaults {| ev_index := "text"; ev_button := 1 |}).1 = [].
Proof.
  split; [|split].
  - exact (proj1 (click_sends_at_most_one vlc_selected
                    {| ev_index := "volume"; ev_button := 1 |})).
  - apply (proj1 (proj2 (click_sends_at_most_one vlc_selected
                           {| ev_index := "volume"; ev_button := 1 |}))).
    unfold controls. simpl.
    intros Hin. repeat (apply elem_of_cons in Hin as [?|Hin]; [discriminate|]).
    by apply elem_of_nil in Hin.
  - by apply (proj2 (proj2 (click_sends_at_most_one defaults
                              {| ev_index := "text"; ev_button := 1 |}))).
Defined.

(** ** Refresh and click together *)

(** X9.  Every control button a refresh shows can be clicked: an entry
    of a returned payload other than the text is one of the four controls,
    the refresh has stored a player, and a click on the entry with mouse
    button 1 sends that player the command of the entry, and nothing
    else. *)
Theorem shown_button_click (self : Py3status) (i3s_config : I3sConfig)
    (cached : Z) (session : outcome Bus) (self' : Py3status) (r : response)
    (b : entry) :
  mpris_body self i3s_config cached session = (self', Ok r) →
  b ∈ composite r →
  index b ≠ "text" →
  ∃ p c,
    _player self' = Some (Some p)
    ∧ glyph_index c = index b
    ∧ on_click self' {| ev_index := index b; ev_button := 1 |} = ([c], invoke p c).
Proof.
  unfold mpris_body.
  destruct (session ≫= _) as [p| |]; [|done..].
  intros [= <- Hr] Hb Hidx.
  assert (∀ bc text col bs,
            compose cached bc text col bs = Ok r →
            ∃ bs', bs = Some bs' ∧ b ∈ bs') as Hcompose.
  { intros bc text col bs. unfold compose, unbound_check.
    repeat case_bool_decide; destruct bs as [bs'|]; simpl; try done;
      intros [= <-]; simpl in Hb;
      rewrite ?elem_of_app, ?elem_of_cons, ?list_elem_of_singleton in Hb;
      destruct_or?; subst; try done; try (by apply elem_of_nil in Hb);
      by exists bs'. }
  destruct p as [player|]; unfold text_and_buttons in Hr.
  - destruct (_get_text _ _ _) as [[text col]| |]; [|done..].
    unfold _get_response_buttons in Hr.
    destruct (PlaybackStatus player) as [status| |]; [|done..].
    cbn [mbind outcome_bind mret outcome_ret] in Hr.
    apply Hcompose in Hr as (bs' & [= <-] & Hin).
    eapply Forall_forall in Hin; [|apply buttons_loop_controls]. simpl in Hin.
    exists player. unfold on_click, call_player. simpl.
    rewrite bool_decide_eq_false_2 by done.
    unfold controls in Hin.
    repeat (apply elem_of_cons in Hin as [->|Hin]);
      [..|by apply elem_of_nil in Hin].
    + by exists PlayPause.
    + by exists Stop.
    + by exists Next.
    + by exists Previous.
  - cbn [mbind outcome_bind mret outcome_ret] in Hr.
    by apply Hcompose in Hr as (bs' & ? & _).
Qed.

(** Side ["left"], vlc playing: a click on the button [»] sends [Next]. *)
Lemma shown_button_click_witness :
  (mpris_body (with_side "left") i3s 105 (Ok mpd_paused_vlc_playing)).2 = Ok left_payload
  ∧ ∃ p c,
      _player (set_player (with_side "left") (Some (player_with "Playing")))
      = Some (Some p)
      ∧ glyph_index c = "next"
      ∧ on_click (set_player (with_side "left") (Some (player_with "Playing")))
          {| ev_index := "next"; ev_button := 1 |} = ([c], invoke p c).
Proof.
  split; [reflexivity|].
  assert (button_entry "»" "next" ∈ composite left_payload) as Hshown.
  { apply (list_elem_of_lookup_2 _ 2%nat). reflexivity. }
  assert (index (button_entry "»" "next") ≠ "text") as Hidx by discriminate.
  exact (shown_button_click (with_side "left") i3s 105 (Ok mpd_paused_vlc_playing)
           _ left_payload (button_entry "»" "next") eq_refl Hshown Hidx).
Defined.

(** X10.  When there is no candidate, the refresh looks up the bus name
    of the sentinel, [org.mpris.MediaPlayer2.None].  If that lookup fails
    the payload is the no-player text in [color_bad] and no player is
    stored; if a player answers under that name, it is stored as the
    selected one, though it was no candidate. *)
Theorem no_candidate_lookup (self : Py3status) (i3s_config : I3sConfig)
    (cached : Z) (bus : Bus) (names : list string) :
  ListNames bus = Ok names →
  candidate_order (player_priority self) (running_players names) = [] →
  (∀ e, get bus (SERVICE_BUS +:+ "." +:+ "None") = Raise e →
        mpris_body self i3s_config cached (Ok bus)
        = (set_player self None, Ok (no_player_payload self i3s_config cached)))
  ∧ (∀ p, get bus (SERVICE_BUS +:+ "." +:+ "None") = Ok p →
          _player (mpris_body self i3s_config cached (Ok bus)).1 = Some (Some p)).
Proof.
  intros Hnames Hnone.
  assert (_detect_running_player self bus = Ok "None") as Hdetect.
  { unfold _detect_running_player. by rewrite Hnames; simpl; rewrite Hnone. }
  unfold mpris_body. simpl mbind. rewrite Hdetect. simpl mbind.
  unfold _get_player. split.
  - intros e ->. done.
  - intros p ->. done.
Qed.

(** Priority ["vlc"] and a single player, registered as [None]: it is no
    candidate, and yet it ends up selected. *)
Lemma no_candidate_lookup_witness :
  _detect_running_player (with_priority "vlc") player_named_None = Ok "None"
  ∧ _player (mpris_body (with_priority "vlc") i3s 0 (Ok player_named_None)).1
    = Some (Some (player_with "Playing")).
Proof.
  split; [reflexivity|].
  exact (proj2 (no_candidate_lookup (with_priority "vlc") i3s 0 player_named_None
                  _ eq_refl eq_refl) (player_with "Playing") eq_refl).
Defined.

(** ** What rendering the text can end with *)

Lemma metadata_block_color (md : gmap string pyval) (l l' : locals) (o : outcome unit) :
  metadata_block md l = (l', o) → v_color l' = v_color l.
Proof.
  unfold metadata_block, step.
  destruct (0 <? size md)%nat; [|by intros [= <- _]].
  destruct (not_local_file _) as [b| |]; [|by intros [= <- _]..].
  destruct (md !! "xesam:artist") as [artist|].
  - destruct (item0 artist) as [a0| |]; [|by intros [= <- _]..].
    destruct (md !! "mpris:length") as [len|]; [|by intros [= <- _]].
    destruct (_get_time_str len); by intros [= <- _].
  - destruct (md !! "mpris:length") as [len|]; [|by intros [= <- _]].
    destruct (_get_time_str len); by intros [= <- _].
Qed.

Lemma try_except_color (self : Py3status) (i3s_config : I3sConfig) (p : Player)
    (l : locals) :
  try_except self i3s_config p = Ok l →
  v_color l = Some (color_bad i3s_config)
  ∨ ∃ c st, _get_state_format self i3s_config p = Ok (c, st) ∧ v_color l = Some c.
Proof.
  unfold try_except.
  destruct (try_block _ _ _ _) as [l' [[]| |]] eqn:Hblock; [|by intros [= <-]; left|done].
  intros [= <-]. right. revert Hblock. unfold try_block, step.
  destruct (Identity p); [|done..].
  destruct (_get_state_format self i3s_config p) as [[c st]| |]; [|done..].
  destruct (Position p) as [pos| |]; [|done..].
  destruct (_get_time_str pos); [|done..].
  destruct (Metadata p) as [md| |]; [|done..].
  intros Hmd%metadata_block_color. by exists c, st.
Qed.

Lemma try_except_no_raise (self : Py3status) (i3s_config : I3sConfig) (p : Player)
    (e : exn) :
  try_except self i3s_config p ≠ Raise e.
Proof.
  unfold try_except. by destruct (try_block _ _ _ _) as [l [[]| |]].
Qed.

Lemma strip_extension_no_raise (s : string) (e : exn) : strip_extension s ≠ Raise e.
Proof. unfold strip_extension. by repeat case_match. Qed.

Lemma format_field_plain (l : locals) (name : string) (e : exn) :
  name ∈ placeholders →
  format_field (keywords l) name ≠ Raise e.
Proof.
  intros Hname. unfold placeholders in Hname.
  repeat (apply elem_of_cons in Hname as [->|Hname]);
    [..|by apply elem_of_nil in Hname]; unfold format_field; simpl; try done.
  - by destruct (v_album l).
  - by destruct (v_artist l).
  - by destruct (v_title l).
Qed.

Lemma str_format_plain_no_raise (l : locals) (mode : fmode) (template : string)
    (e : exn) :
  plain_template mode template = true →
  str_format (keywords l) mode template ≠ Raise e.
Proof.
  revert mode.
  induction template as [|c rest IH]; intros mode; simpl.
  { by destruct mode. }
  assert (∀ (f : string → string),
            plain_template Text rest = true →
            (out ← str_format (keywords l) Text rest; mret (f out)) ≠ Raise e)
    as Hrest.
  { intros f Hplain. specialize (IH Text Hplain).
    by destruct (str_format (keywords l) Text rest). }
  destruct mode as [| |name].
  - destruct (Ascii.eqb c "{"); [apply IH|].
    destruct (Ascii.eqb c "}"); [apply IH|]. apply (Hrest (String c)).
  - destruct (Ascii.eqb c "}"); [|done]. apply (Hrest (String "}")).
  - destruct (Ascii.eqb c "}").
    + intros [Hname%bool_decide_eq_true Hplain]%andb_true_iff.
      pose proof (format_field_plain l name e Hname) as Hfield.
      destruct (format_field (keywords l) name) as [f| |]; [|done..].
      apply (Hrest (String.append f) Hplain).
    + destruct (Ascii.eqb c "{").
      * intros [->%bool_decide_eq_true Hplain]%andb_true_iff.
        rewrite bool_decide_eq_true_2 by done. by apply (Hrest (String "{")).
      * destruct (beyond_plain_field c); [done|apply IH].
Qed.

(** X11.  With plain templates -- literal text, the escapes and fields
    naming the seven placeholders -- rendering the text raises in one case
    only: the [TypeError] of the extension cut, for a stream whose title is
    no text.  No error of the bus comes through, no error of the template,
    and the colour is never unbound. *)
Theorem text_errors (self : Py3status) (i3s_config : I3sConfig) (p : Player)
    (e : exn) :
  plain_template Text (format self) = true →
  plain_template Text (format_stream self) = true →
  _get_text self i3s_config p = Raise e →
  e = TypeError
  ∧ ∃ l, try_except self i3s_config p = Ok l
         ∧ v_is_stream l = true
         ∧ ∀ s, v_title l ≠ PStr s.
Proof.
  intros Htrack Hstream. unfold _get_text.
  destruct (try_except self i3s_config p) as [l|e'|] eqn:Htry;
    [|by destruct (try_except_no_raise _ _ _ _ Htry)|done].
  assert (∃ c, v_color l = Some c) as [c Hc].
  { apply try_except_color in Htry as [?|(c & st & _ & ?)]; by eexists. }
  simpl mbind. unfold render.
  assert (∀ l' template,
            v_color l' = Some c →
            plain_template Text template = true →
            (text ← str_format (keywords l') Text template;
             match v_color l' with
             | Some color => mret (text, color)
             | None => Raise UnboundLocalError
             end) ≠ Raise e)
    as Hformat.
  { intros l' template -> Hplain.
    pose proof (str_format_plain_no_raise l' Text template e Hplain).
    destruct (str_format _ _ _) as [a|e0|]; simpl; [by intros [=]| |by intros [=]].
    intros [= ->]. by apply H. }
  destruct (v_is_stream l) eqn:Hs.
  - unfold sub_extension. destruct (v_title l) as [s| |] eqn:Htitle.
    + destruct (strip_extension s) eqn:Hstrip; simpl; [|..|done].
      * intros H. by destruct (Hformat (set_title (PStr a) l) _ Hc Hstream).
      * by destruct (strip_extension_no_raise _ _ Hstrip).
    + intros [= <-]. split; [done|]. exists l. by rewrite Htitle.
    + intros [= <-]. split; [done|]. exists l. by rewrite Htitle.
  - intros H. by destruct (Hformat l _ Hc Htrack).
Qed.

(** The default templates, and a stream whose title is an array. *)
Lemma text_errors_witness :
  _get_text defaults i3s (player_with_metadata title_array) = Raise TypeError
  ∧ TypeError = TypeError
  ∧ ∃ l, try_except defaults i3s (player_with_metadata title_array) = Ok l
         ∧ v_is_stream l = true
         ∧ ∀ s, v_title l ≠ PStr s.
Proof.
  split; [reflexivity|].
  exact (text_errors defaults i3s (player_with_metadata title_array) TypeError
           eq_refl eq_refl eq_refl).
Defined.

(** X12.  The colour that comes with the text is the colour of the
    player's state, as the state format gives it, or [color_bad]. *)
Theorem text_colour (self : Py3status) (i3s_config : I3sConfig) (p : Player)
    (text c : string) :
  _get_text self i3s_config p = Ok (text, c) →
  c = color_bad i3s_config
  ∨ ∃ st, _get_state_format self i3s_config p = Ok (c, st).
Proof.
  unfold _get_text.
  destruct (try_except self i3s_config p) as [l|e'|] eqn:Htry;
    [|by destruct (try_except_no_raise _ _ _ _ Htry)|done].
  simpl mbind. unfold render.
  assert (∀ l' template,
            v_color l' = v_color l →
            (text ← str_format (keywords l') Text template;
             match v_color l' with
             | Some color => mret (text, color)
             | None => Raise UnboundLocalError
             end) = Ok (text, c) →
            v_color l = Some c) as Hformat.
  { intros l' template <-. destruct (str_format _ _ _); [|done..]. simpl.
    destruct (v_color l'); [|done]. by intros [= _ ->]. }
  assert (v_color l = Some c →
          c = color_bad i3s_config
          ∨ ∃ st, _get_state_format self i3s_config p = Ok (c, st)) as Hdone.
  { intros Hc. apply try_except_color in Htry as [Hbad|(c' & st & Hsf & Hc')].
    - left. congruence.
    - right. exists st. congruence. }
  destruct (v_is_stream l).
  - destruct (sub_extension (v_title l)) as [title| |]; [|done..]. simpl.
    intros H. apply Hdone. exact (Hformat (set_title title l) _ eq_refl H).
  - simpl. intros H. apply Hdone. exact (Hformat l _ eq_refl H).
Qed.

Lemma text_colour_witness :
  _get_text defaults i3s (player_with "Playing") = Ok ("▶ Band - Song", "#00FF00")
  ∧ (("#00FF00" : string) = color_bad i3s
     ∨ ∃ st, _get_state_format defaults i3s (player_with "Playing")
             = Ok ("#00FF00", st)).
Proof.
  split; [reflexivity|].
  exact (text_colour defaults i3s (player_with "Playing") "▶ Band - Song" "#00FF00"
           eq_refl).
Defined.

(** ** The text when every query answers *)

Lemma metadata_block_answered (md : gmap string pyval) (l : locals)
    (u len c : string) (artist : option pyval) :
  md !! "xesam:url" = Some (PStr u) →
  first_artist md = Ok artist →
  length_text md = Ok len →
  v_length l = UNKNOWN_TIME →
  v_artist l = PStr UNKNOWN →
  v_color l = Some c →
  metadata_block md l
  = (answered_locals (v_player l) (v_state l) c (v_time l) len md u artist, Ok ()).
Proof.
  intros Hurl Hartist Hlen Hl Ha Hc.
  unfold metadata_block, step.
  assert ((0 <? size md)%nat = true) as ->.
  { apply Nat.ltb_lt. pose proof (map_size_ne_0_lookup_2 md "xesam:url") as Hne.
    rewrite Hurl in Hne. specialize (Hne ltac:(by eexists)). lia. }
  rewrite Hurl. cbn [not_local_file mret outcome_ret].
  unfold first_artist in Hartist. unfold length_text in Hlen.
  unfold answered_locals.
  destruct l as [s pl stt ar al ln tm tt cl]. simpl in *. subst.
  assert (∀ (x : option pyval), mret x = Ok artist → x = artist) as Hret
    by (by intros x [= ->]).
  destruct (md !! "xesam:artist") as [v|].
  - destruct (item0 v) as [a0| |]; try discriminate.
    apply Hret in Hartist as <-.
    destruct (md !! "mpris:length") as [lv|].
    + rewrite Hlen. unfold set_length, set_artist; simpl.
      by rewrite orb_false_r.
    + injection Hlen as <-. unfold set_artist; simpl. by rewrite orb_false_r.
  - apply Hret in Hartist as <-.
    destruct (md !! "mpris:length") as [lv|].
    + rewrite Hlen. unfold set_length; simpl. by rewrite orb_true_r.
    + injection Hlen as <-. simpl. by rewrite orb_true_r.
Qed.

(** X13.  When the identity, the state, the position and the metadata
    are read, the url is text, and the first artist and the length are
    found or absent, the text is built from exactly these values:
    ['Unknown'] for a title or an album that is absent or empty and for an
    absent artist; the first artist only, as it is, also when it is empty;
    ['-:--'] for an absent length.  The stream-mode template is used
    if the url has no ['file://'] in it or the artist is absent, on the
    title with its extension cut; the track-mode template otherwise, on the
    title as it is.  The colour is the colour of the state. *)
Theorem text_when_all_answer (self : Py3status) (i3s_config : I3sConfig)
    (p : Player) (identity c st t u len : string) (pos : pyval)
    (md : gmap string pyval) (artist : option pyval) :
  Identity p = Ok identity →
  _get_state_format self i3s_config p = Ok (c, st) →
  Position p = Ok pos →
  _get_time_str pos = Ok t →
  Metadata p = Ok md →
  md !! "xesam:url" = Some (PStr u) →
  first_artist md = Ok artist →
  length_text md = Ok len →
  let l := answered_locals identity st c t len md u artist in
  _get_text self i3s_config p
  = if negb (contains "file://" u) || bool_decide (artist = None)
    then title ← sub_extension (v_title l);
         text ← str_format (keywords (set_title title l)) Text (format_stream self);
         mret (text, c)
    else text ← str_format (keywords l) Text (format self);
         mret (text, c).
Proof.
  intros Hid Hsf Hpos Ht Hmd Hurl Hartist Hlen l.
  unfold _get_text, try_except, try_block, step.
  rewrite Hid, Hsf, Hpos, Ht, Hmd.
  pose proof (metadata_block_answered md
                (set_time t (set_state st (set_color c (set_identity identity
                                                          initial_locals))))
                u len c artist Hurl Hartist Hlen eq_refl eq_refl eq_refl)
    as Hblock.
  simpl in Hblock.
  rewrite Hblock. simpl mbind. unfold render. fold l.
  change (v_is_stream l)
    with (negb (contains "file://" u) || bool_decide (artist = None)).
  destruct (_ || _); simpl; [|done].
  by destruct (sub_extension _).
Qed.

(** A song from a local file, a video without artist, and a song whose
    first artist is empty. *)
Lemma text_when_all_answer_witness :
  _get_text defaults i3s (player_with "Playing") = Ok ("▶ Band - Song", "#00FF00")
  ∧ _get_text (with_formats "track {title}" "stream {title} {length}") i3s
      (player_with_metadata video_with_url) = Ok ("stream Movie 1:30:00", "#00FF00")
  ∧ _get_text defaults i3s (player_with_metadata empty_artist)
    = Ok ("▶  - Song", "#00FF00").
Proof.
  split_and!.
  - exact (text_when_all_answer defaults i3s (player_with "Playing")
             "VLC" "#00FF00" "▶" "0:45" "file:///music/a.flac" "3:45"
             (PInt 45000000) song (Some (PStr "Band"))
             eq_refl eq_refl eq_refl eq_refl eq_refl eq_refl eq_refl eq_refl).
  - exact (text_when_all_answer
             (with_formats "track {title}" "stream {title} {length}") i3s
             (player_with_metadata video_with_url)
             "VLC" "#00FF00" "▶" "0:45" "file:///videos/movie.mkv" "1:30:00"
             (PInt 45000000) video_with_url None
             eq_refl eq_refl eq_refl eq_refl eq_refl eq_refl eq_refl eq_refl).
  - exact (text_when_all_answer defaults i3s (player_with_metadata empty_artist)
             "VLC" "#00FF00" "▶" "0:45" "file:///music/a.flac" "-:--"
             (PInt 45000000) empty_artist (Some (PStr ""))
             eq_refl eq_refl eq_refl eq_refl eq_refl eq_refl eq_refl eq_refl).
Defined.

(** ** Players that have vanished *)

Lemma scan_unreachable (bus : Bus) (cands st : list string) :
  Forall (λ c, ∃ e, get bus (SERVICE_BUS +:+ "." +:+ c) = Raise e) cands →
  scan bus cands [] st = Ok (default "None" (head (st ++ cands))).
Proof.
  intros Hall. revert st. induction Hall as [|c cands [e He] _ IH]; intros st.
  - rewrite app_nil_r. by destruct st.
  - rewrite scan_unfold. unfold _get_state, _get_player. rewrite He. simpl.
    rewrite IH. by rewrite <-app_assoc.
Qed.

(** X14.  When no candidate can be reached any more, nothing fails: the
    first candidate is returned by the detection (it is ranked as stopped),
    its lookup fails once more, and the refresh body returns the no-player
    text in [color_bad] and stores no player. *)
Theorem all_candidates_vanished (self : Py3status) (i3s_config : I3sConfig)
    (cached : Z) (bus : Bus) (names : list string) (c : string) (rest : list string) :
  ListNames bus = Ok names →
  candidate_order (player_priority self) (running_players names) = c :: rest →
  Forall (λ c, ∃ e, get bus (SERVICE_BUS +:+ "." +:+ c) = Raise e) (c :: rest) →
  _detect_running_player self bus = Ok c
  ∧ mpris_body self i3s_config cached (Ok bus)
    = (set_player self None, Ok (no_player_payload self i3s_config cached)).
Proof.
  intros Hnames Hcands Hall.
  assert (_detect_running_player self bus = Ok c) as Hdetect.
  { unfold _detect_running_player. rewrite Hnames. simpl mbind.
    rewrite Hcands. by rewrite scan_unreachable. }
  split; [done|].
  apply Forall_cons in Hall as [[e He] _].
  unfold mpris_body. simpl mbind. rewrite Hdetect. simpl mbind.
  unfold _get_player. by rewrite He.
Qed.

Lemma all_candidates_vanished_witness :
  _detect_running_player defaults all_vanished = Ok "vlc"
  ∧ mpris_body defaults i3s 3 (Ok all_vanished)
    = (set_player defaults None, Ok (no_player_payload defaults i3s 3)).
Proof.
  apply (all_candidates_vanished defaults i3s 3 all_vanished _ "vlc" ["mpd"]
           eq_refl eq_refl).
  repeat constructor; by exists GError.
Defined.

(** ** Nobody is asked twice *)

(** X15.  If the enumeration names no player twice, the candidate order
    names no player twice either, however often a name occurs in the
    priority list. *)
Theorem candidates_without_repetition (priority : option string)
    (players : list string) :
  NoDup players → NoDup (candidate_order priority players).
Proof.
  intros Hnodup. destruct priority as [p|]; [|done].
  unfold candidate_order.
  destruct (prioritize_spec (split "," p) players [])
    as (named & rest & Heq & _ & _ & Hperm & _).
  rewrite Heq. simpl. rewrite Hperm in Hnodup.
  case_bool_decide; [done|]. by apply NoDup_app in Hnodup as [? _].
Qed.

Lemma candidates_without_repetition_witness :
  NoDup (candidate_order (Some "vlc,vlc,*,vlc") ["mpd"; "vlc"]).
Proof.
  apply candidates_without_repetition.
  apply NoDup_cons. split.
  - intros Hin. apply list_elem_of_singleton in Hin. discriminate.
  - apply NoDup_singleton.
Defined.

(** ** A text that is not empty *)

(** X16.  If both templates contain a literal character, as the default
    templates do, every text that is returned is non-empty, whatever the
    player answers. *)
Theorem text_nonempty (self : Py3status) (i3s_config : I3sConfig) (p : Player)
    (text c : string) :
  has_literal Text (format self) = true →
  has_literal Text (format_stream self) = true →
  _get_text self i3s_config p = Ok (text, c) →
  text ≠ "".
Proof.
  intros Htrack Hstream. unfold _get_text.
  destruct (try_except self i3s_config p) as [l| |]; [|done..].
  simpl mbind. unfold render.
  assert (∀ l' template,
            has_literal Text template = true →
            (text ← str_format (keywords l') Text template;
             match v_color l' with
             | Some color => mret (text, color)
             | None => Raise UnboundLocalError
             end) = Ok (text, c) →
            text ≠ "") as Hformat.
  { intros l' template Hlit.
    destruct (str_format _ _ _) as [out| |] eqn:Hout; [|done..]. simpl.
    destruct (v_color l'); [|done]. intros [= <- _].
    by apply (str_format_literal _ _ _ _ Hout). }
  destruct (v_is_stream l).
  - destruct (sub_extension (v_title l)) as [title| |]; [|done..]. simpl.
    intros H. exact (Hformat (set_title title l) _ Hstream H).
  - simpl. intros H. exact (Hformat l _ Htrack H).
Qed.

(** A stream titled [.mp3]: the title is cut to nothing, the text is not. *)
Lemma text_nonempty_witness :
  _get_text defaults i3s (player_with_metadata only_extension) = Ok ("▶ ", "#00FF00")
  ∧ ("▶ " : string) ≠ "".
Proof.
  split; [reflexivity|].
  exact (text_nonempty defaults i3s (player_with_metadata only_extension)
           "▶ " "#00FF00" eq_refl eq_refl eq_refl).
Defined.

(** ** The stream flag *)

(** The rule of the stream flag on a stream with a url and a title. *)
Lemma metadata_block_stream_witness :
  v_is_stream (metadata_block radio initial_locals).1 = true
  ↔ (size radio = 0%nat ∨ radio !! "xesam:artist" = None
     ∨ not_local_file (radio !! "xesam:url") = Ok true).
Proof.
  apply (metadata_block_stream radio initial_locals). reflexivity.
Defined.
